(** * pygmsh: the Gmsh script generator, its sessions and composite builders

    A shallow embedding of [pygmsh/geometry.py] (the built-in kernel session)
    and [pygmsh/opencascade/geometry.py] (the OpenCASCADE session), followed by
    the properties of the statement log, the name counters and the composite
    builders.

    Python objects are mutated in place and exceptions leave earlier mutations
    standing, so every method is a function from the state before the call to
    an outcome (a value or a raised exception) and the state after it.

    Arguments have the types the methods are written for: a coordinate vector
    is a triple of numbers, a rotation a 3x3 matrix, a label a string or
    [None], a list of holes a list of names.  Exceptions that only an
    argument of another type can trigger are outside the embedding; those the
    methods raise on arguments of these types are part of it. *)

From Stdlib Require Import Ascii String QArith.
From stdpp Require Import base numbers list strings pretty sorting.

Local Close Scope Q_scope.
Local Open Scope N_scope.

(** ** Python strings *)

Definition nl : string := String "010"%char "".
Definition dq : string := String "034"%char "".

(** [sep.join(l)] *)
Fixpoint join (sep : string) (l : list string) : string :=
  match l with
  | [] => ""
  | [x] => x
  | x :: l' => x +:+ sep +:+ join sep l'
  end.

(** [n * c] for a one-character string [c] *)
Fixpoint replicate_char (n : nat) (c : ascii) : string :=
  match n with
  | O => ""
  | S n' => String c (replicate_char n' c)
  end.

(** [s.startswith(p)] *)
Fixpoint startswith (s p : string) {struct p} : bool :=
  match p, s with
  | EmptyString, _ => true
  | String a p', String b s' => Ascii.eqb a b && startswith s' p'
  | String _ _, EmptyString => false
  end.

Fixpoint last_char (s : string) : option ascii :=
  match s with
  | EmptyString => None
  | String c EmptyString => Some c
  | String _ s' => last_char s'
  end.

Definition ends_in_newline (s : string) : bool :=
  match last_char s with
  | Some c => if decide (c = "010"%char) then true else false
  | None => false
  end.

(** The digits of a counter *)
Definition is_digit (c : ascii) : bool :=
  bool_decide (c ∈ ["0"; "1"; "2"; "3"; "4"; "5"; "6"; "7"; "8"; "9"]%char).

Fixpoint all_chars (P : ascii → bool) (s : string) : bool :=
  match s with
  | EmptyString => true
  | String c s' => P c && all_chars P s'
  end.

(** How many statements of a list open with the words [p] *)
Fixpoint count_starting (p : string) (l : list string) : nat :=
  match l with
  | [] => O
  | s :: l' => (if startswith s p then 1 else 0)%nat + count_starting p l'
  end.

(** ['%d' % n] for a counter *)
Definition fmt_d (n : N) : string := pretty n.

(** ** Python numbers

    Coordinates, radii and lengths are Python (numpy) floats.  The builders
    only add, subtract and multiply them, test them for truth and print them,
    so the embedding is generic in the number type. *)

Class Numeric (num : Type) := {
  zero : num;                       (* 0.0 *)
  one : num;                        (* 1.0 *)
  half : num;                       (* 0.5 *)
  nopp : num → num;
  nadd : num → num → num;
  nsub : num → num → num;
  nmul : num → num → num;
  nlt : num → num → Prop;
  truthy : num → bool;              (* [if x:] *)
  fmt_s : num → string;             (* ['%s' % x], ['{}'.format(x)] *)
  fmt_r : num → string;             (* ['%r' % x], [repr(x)] *)
}.

Definition vec3 (num : Type) : Type := num * num * num.
Definition mat3 (num : Type) : Type := vec3 num * vec3 num * vec3 num.

Section Vectors.
Context {num : Type} `{Numeric num}.

Definition vadd (a b : vec3 num) : vec3 num :=
  let '(a0, a1, a2) := a in
  let '(b0, b1, b2) := b in
  (nadd a0 b0, nadd a1 b1, nadd a2 b2).

Definition inner (a b : vec3 num) : num :=
  let '(a0, a1, a2) := a in
  let '(b0, b1, b2) := b in
  nadd (nadd (nmul a0 b0) (nmul a1 b1)) (nmul a2 b2).

(** [numpy.dot(R, v)] *)
Definition dot_mv (R : mat3 num) (v : vec3 num) : vec3 num :=
  let '(r0, r1, r2) := R in (inner r0 v, inner r1 v, inner r2 v).

Definition column (k : nat) (R : mat3 num) : vec3 num :=
  let pick (r : vec3 num) := let '(x, y, z) := r in
    match k with O => x | S O => y | _ => z end in
  let '(r0, r1, r2) := R in (pick r0, pick r1, pick r2).

(** [numpy.dot(A, B)] *)
Definition dot_mm (A B : mat3 num) : mat3 num :=
  let row (r : vec3 num) :=
    (inner r (column 0 B), inner r (column 1 B), inner r (column 2 B)) in
  let '(a0, a1, a2) := A in (row a0, row a1, row a2).

(** [tuple(v)] rendered by three [%s] *)
Definition fmt_vec (v : vec3 num) : list string :=
  let '(x, y, z) := v in [fmt_s x; fmt_s y; fmt_s z].
End Vectors.

(** ** Outcomes and the session monad *)

Inductive exn : Type :=
  | RuntimeError (msg : string)
  | ValueError (msg : string)
  | AssertionError (msg : string)
  | IndexError
  | TypeError.

Inductive outcome (A : Type) : Type :=
  | Returns (a : A)
  | Raises (e : exn).
Arguments Returns {A} a.
Arguments Raises {A} e.

Definition M (St A : Type) : Type := St → outcome A * St.

Global Instance M_ret {St} : MRet (M St) := λ A a s, (Returns a, s).
Global Instance M_bind {St} : MBind (M St) := λ A B f m s,
  match m s with
  | (Returns a, s') => f a s'
  | (Raises e, s') => (Raises e, s')
  end.
Global Instance M_throw {St} : MThrow exn (M St) := λ A e s, (Raises e, s).

Definition get {St} : M St St := λ s, (Returns s, s).
Definition modify {St} (f : St → St) : M St () := λ s, (Returns (), f s).

Definition state_after {St A} (m : M St A) (s : St) : St := (m s).2.
Definition result_of {St A} (m : M St A) (s : St) : outcome A := (m s).1.

(** [for x in l: body] *)
Fixpoint for_each {St A} (l : list A) (body : A → M St ()) : M St () :=
  match l with
  | [] => mret ()
  | x :: l' => body x ;; for_each l' body
  end.

(** [for x in l: acc = body(acc, x)], for loops that update local variables *)
Fixpoint fold_loop {St A B} (body : B → A → M St B) (l : list A) (acc : B)
    : M St B :=
  match l with
  | [] => mret acc
  | x :: l' => acc' ← body acc x; fold_loop body l' acc'
  end.

(** A relation between the state before and the state after that a
    computation keeps, whatever its outcome *)
Definition preserves {St A} (R : relation St) (m : M St A) : Prop :=
  ∀ s, R s (state_after m s).

(** An attribute of the state that a computation leaves as it was *)
Definition unchanged {St X} (attr : St → X) : relation St :=
  λ s s', attr s = attr s'.

(** Objects are used through their attributes: anything with an [.id] can be
    referenced in a statement, anything with a [.code] can be added. *)
Class HasId (A : Type) := id_of : A → string.
Class HasCode (A : Type) := code_of : A → string.

Global Instance sum_has_id {A B} `{HasId A, HasId B} : HasId (A + B) :=
  λ x, match x with inl a => id_of a | inr b => id_of b end.

(** A value printed by [%s]: [None], a string or a number. *)
Inductive pyval (num : Type) : Type :=
  | VNone
  | VStr (s : string)
  | VNum (x : num).
Arguments VNone {num}.
Arguments VStr {num} s.
Arguments VNum {num} x.

Definition str_of_pyval {num} `{Numeric num} (v : pyval num) : string :=
  match v with
  | VNone => "None"
  | VStr s => s
  | VNum x => fmt_s x
  end.

(** [if label:] for [label] that is [None] or a string *)
Definition label_given (label : option string) : bool :=
  match label with
  | Some (String _ _) => true
  | _ => false
  end.

(** * The built-in kernel session: [pygmsh/geometry.py] *)

Module Builtin.

(** ** The entity classes

    [Point], [Line], [EllipseArc], [LineLoop], [PlaneSurface], [Circle] and
    [Dummy] live in modules of their own.  The session uses their [.id],
    their [.code], the unary minus of a curve and, for a circle, its
    [.line_loop.lines] and [.plane_surface]. *)

Inductive pyclass : Type :=
  cPoint | cLine | cEllipseArc | cPlaneSurface | cOther.

Record Entity : Type := { cls : pyclass; id : string; code : string }.

Record Dummy : Type := { dummy_id : string }.

Record LineLoopT : Type :=
  { ll_id : string; ll_code : string; lines : list Entity }.

Record CircleT : Type :=
  { circle_code : string; line_loop : LineLoopT; plane_surface : Entity }.

Global Instance Entity_id : HasId Entity := id.
Global Instance Entity_code : HasCode Entity := code.
Global Instance Dummy_has_id : HasId Dummy := dummy_id.
Global Instance LineLoop_id : HasId LineLoopT := ll_id.
Global Instance LineLoop_code : HasCode LineLoopT := ll_code.
Global Instance Circle_code : HasCode CircleT := circle_code.

(** What the constructors of the entity classes compute is left open: each
    one reads and advances the id counters of its class ([class_ids]) and
    yields the id and the code of the new object. *)
Class EntityClasses (num : Type) := {
  class_ids : Type;
  Point_init : vec3 num → num → class_ids → (string * string) * class_ids;
  Line_init : Entity → Entity → class_ids → (string * string) * class_ids;
  EllipseArc_init : list Entity → class_ids → (string * string) * class_ids;
  LineLoop_init : list Entity → class_ids → (string * string) * class_ids;
  PlaneSurface_init :
    LineLoopT → option (list LineLoopT) → class_ids →
    (string * string) * class_ids;
  (* x0, radius, lcar, R, and the keywords holes and make_surface when the
     caller passes them *)
  Circle_init :
    vec3 num → num → num → mat3 num →
    option (list LineLoopT) → option bool → class_ids → CircleT * class_ids;
  (* [-curve] *)
  neg : Entity → Entity;
  (* ['%s' % dummy] *)
  str_Dummy : Dummy → string;
  (* [__version__] *)
  version : string;
}.

Inductive counter : Type :=
  | SURFACE_ID | SURFACELOOP_ID | VOLUME_ID | ELLIPSE_ID
  | EXTRUDE_ID | ARRAY_ID | FIELD_ID | PHYSICALGROUP_ID.

Global Instance counter_eq_dec : EqDecision counter.
Proof. solve_decision. Defined.

Record Geometry : Type := {
  _SURFACE_ID : N;
  _SURFACELOOP_ID : N;
  _VOLUME_ID : N;
  _ELLIPSE_ID : N;
  _EXTRUDE_ID : N;
  _ARRAY_ID : N;
  _FIELD_ID : N;
  _PHYSICALGROUP_ID : N;
  _GMSH_CODE : list string;
}.

Definition counter_of (c : counter) (g : Geometry) : N :=
  match c with
  | SURFACE_ID => _SURFACE_ID g
  | SURFACELOOP_ID => _SURFACELOOP_ID g
  | VOLUME_ID => _VOLUME_ID g
  | ELLIPSE_ID => _ELLIPSE_ID g
  | EXTRUDE_ID => _EXTRUDE_ID g
  | ARRAY_ID => _ARRAY_ID g
  | FIELD_ID => _FIELD_ID g
  | PHYSICALGROUP_ID => _PHYSICALGROUP_ID g
  end.

Definition set_counter (c : counter) (n : N) (g : Geometry) : Geometry :=
  match c with
  | SURFACE_ID =>
      {| _SURFACE_ID := n; _SURFACELOOP_ID := _SURFACELOOP_ID g;
         _VOLUME_ID := _VOLUME_ID g; _ELLIPSE_ID := _ELLIPSE_ID g;
         _EXTRUDE_ID := _EXTRUDE_ID g; _ARRAY_ID := _ARRAY_ID g;
         _FIELD_ID := _FIELD_ID g;
         _PHYSICALGROUP_ID := _PHYSICALGROUP_ID g;
         _GMSH_CODE := _GMSH_CODE g |}
  | SURFACELOOP_ID =>
      {| _SURFACE_ID := _SURFACE_ID g; _SURFACELOOP_ID := n;
         _VOLUME_ID := _VOLUME_ID g; _ELLIPSE_ID := _ELLIPSE_ID g;
         _EXTRUDE_ID := _EXTRUDE_ID g; _ARRAY_ID := _ARRAY_ID g;
         _FIELD_ID := _FIELD_ID g;
         _PHYSICALGROUP_ID := _PHYSICALGROUP_ID g;
         _GMSH_CODE := _GMSH_CODE g |}
  | VOLUME_ID =>
      {| _SURFACE_ID := _SURFACE_ID g;
         _SURFACELOOP_ID := _SURFACELOOP_ID g; _VOLUME_ID := n;
         _ELLIPSE_ID := _ELLIPSE_ID g; _EXTRUDE_ID := _EXTRUDE_ID g;
         _ARRAY_ID := _ARRAY_ID g; _FIELD_ID := _FIELD_ID g;
         _PHYSICALGROUP_ID := _PHYSICALGROUP_ID g;
         _GMSH_CODE := _GMSH_CODE g |}
  | ELLIPSE_ID =>
      {| _SURFACE_ID := _SURFACE_ID g;
         _SURFACELOOP_ID := _SURFACELOOP_ID g; _VOLUME_ID := _VOLUME_ID g;
         _ELLIPSE_ID := n; _EXTRUDE_ID := _EXTRUDE_ID g;
         _ARRAY_ID := _ARRAY_ID g; _FIELD_ID := _FIELD_ID g;
         _PHYSICALGROUP_ID := _PHYSICALGROUP_ID g;
         _GMSH_CODE := _GMSH_CODE g |}
  | EXTRUDE_ID =>
      {| _SURFACE_ID := _SURFACE_ID g;
         _SURFACELOOP_ID := _SURFACELOOP_ID g; _VOLUME_ID := _VOLUME_ID g;
         _ELLIPSE_ID := _ELLIPSE_ID g; _EXTRUDE_ID := n;
         _ARRAY_ID := _ARRAY_ID g; _FIELD_ID := _FIELD_ID g;
         _PHYSICALGROUP_ID := _PHYSICALGROUP_ID g;
         _GMSH_CODE := _GMSH_CODE g |}
  | ARRAY_ID =>
      {| _SURFACE_ID := _SURFACE_ID g;
         _SURFACELOOP_ID := _SURFACELOOP_ID g; _VOLUME_ID := _VOLUME_ID g;
         _ELLIPSE_ID := _ELLIPSE_ID g; _EXTRUDE_ID := _EXTRUDE_ID g;
         _ARRAY_ID := n; _FIELD_ID := _FIELD_ID g;
         _PHYSICALGROUP_ID := _PHYSICALGROUP_ID g;
         _GMSH_CODE := _GMSH_CODE g |}
  | FIELD_ID =>
      {| _SURFACE_ID := _SURFACE_ID g;
         _SURFACELOOP_ID := _SURFACELOOP_ID g; _VOLUME_ID := _VOLUME_ID g;
         _ELLIPSE_ID := _ELLIPSE_ID g; _EXTRUDE_ID := _EXTRUDE_ID g;
         _ARRAY_ID := _ARRAY_ID g; _FIELD_ID := n;
         _PHYSICALGROUP_ID := _PHYSICALGROUP_ID g;
         _GMSH_CODE := _GMSH_CODE g |}
  | PHYSICALGROUP_ID =>
      {| _SURFACE_ID := _SURFACE_ID g;
         _SURFACELOOP_ID := _SURFACELOOP_ID g; _VOLUME_ID := _VOLUME_ID g;
         _ELLIPSE_ID := _ELLIPSE_ID g; _EXTRUDE_ID := _EXTRUDE_ID g;
         _ARRAY_ID := _ARRAY_ID g; _FIELD_ID := _FIELD_ID g;
         _PHYSICALGROUP_ID := n; _GMSH_CODE := _GMSH_CODE g |}
  end.

Section Session.
Context {num : Type} `{Numeric num} `{EntityClasses num}.

(** The state a call runs in: the session object and, beside it, the id
    counters the entity classes keep for the whole process. *)
Record State : Type := { self : Geometry; ids : class_ids }.

Local Abbreviation Py := (M State).

(** [self._GMSH_CODE.append(stmt)] *)
Definition append_code (stmt : string) : Py () :=
  modify (λ s,
    {| self := {| _SURFACE_ID := _SURFACE_ID (self s);
                  _SURFACELOOP_ID := _SURFACELOOP_ID (self s);
                  _VOLUME_ID := _VOLUME_ID (self s);
                  _ELLIPSE_ID := _ELLIPSE_ID (self s);
                  _EXTRUDE_ID := _EXTRUDE_ID (self s);
                  _ARRAY_ID := _ARRAY_ID (self s);
                  _FIELD_ID := _FIELD_ID (self s);
                  _PHYSICALGROUP_ID := _PHYSICALGROUP_ID (self s);
                  _GMSH_CODE := _GMSH_CODE (self s) ++ [stmt] |};
       ids := ids s |}).

(** [self._C += 1] *)
Definition bump (c : counter) : Py () :=
  modify (λ s,
    {| self := set_counter c (counter_of c (self s) + 1) (self s);
       ids := ids s |}).

(** [self._C] *)
Definition read (c : counter) : Py N :=
  s ← get; mret (counter_of c (self s)).

(** [name = prefix + '%d' % self._C] *)
Definition named (c : counter) (prefix : string) : Py string :=
  n ← read c;
  mret (prefix +:+ fmt_d n).

(** [self._C += 1; name = prefix + '%d' % self._C], the two lines by which a
    method allocates a name *)
Definition fresh (c : counter) (prefix : string) : Py string :=
  bump c;;
  named c prefix.

(** Calling the constructor of an entity class *)
Definition construct {A} (init : class_ids → A * class_ids) : Py A :=
  λ s, let '(a, w) := init (ids s) in
       (Returns a, {| self := self s; ids := w |}).

Definition new_entity (c : pyclass)
    (init : class_ids → (string * string) * class_ids) : Py Entity :=
  construct (λ w, let '((i, k), w') := init w in
                  ({| cls := c; id := i; code := k |}, w')).

Definition Point (x : vec3 num) (lcar : num) : Py Entity :=
  new_entity cPoint (Point_init x lcar).

Definition Line (p0 p1 : Entity) : Py Entity :=
  new_entity cLine (Line_init p0 p1).

Definition EllipseArc (points : list Entity) : Py Entity :=
  new_entity cEllipseArc (EllipseArc_init points).

Definition LineLoop (curves : list Entity) : Py LineLoopT :=
  construct (λ w, let '((i, k), w') := LineLoop_init curves w in
                  ({| ll_id := i; ll_code := k; lines := curves |}, w')).

Definition PlaneSurface (ll : LineLoopT) (holes : option (list LineLoopT))
    : Py Entity :=
  new_entity cPlaneSurface (PlaneSurface_init ll holes).

Definition Circle (x0 : vec3 num) (radius lcar : num) (R : mat3 num)
    (holes : option (list LineLoopT)) (make_surface : option bool)
    : Py CircleT :=
  construct (Circle_init x0 radius lcar R holes make_surface).

(** ** The session *)

Definition _header : string :=
  "// This code was created by PyGmsh v" +:+ version +:+ ".".

Definition __init__ : Geometry :=
  {| _SURFACE_ID := 0;
     _SURFACELOOP_ID := 0;
     _VOLUME_ID := 0;
     _ELLIPSE_ID := 0;
     _EXTRUDE_ID := 0;
     _ARRAY_ID := 0;
     _FIELD_ID := 0;
     _PHYSICALGROUP_ID := 0;
     _GMSH_CODE := [_header] |}.

Definition get_code (g : Geometry) : string :=
  join nl (_GMSH_CODE g).

Definition add {A} `{HasCode A} (entity : A) : Py A :=
  append_code (code_of entity);;
  mret entity.

Definition add_ruled_surface {A} `{HasId A} (line_loop : A) : Py Dummy :=
  sname ← fresh SURFACE_ID "surf";
  append_code (sname +:+ " = news;");;
  append_code
    ("Ruled Surface(" +:+ sname +:+ ") = {" +:+ id_of line_loop +:+ "};");;
  mret {| dummy_id := sname |}.

Definition add_compound_surface {A} `{HasId A} (surfaces : list A)
    : Py Dummy :=
  name ← fresh SURFACE_ID "surf";
  append_code (name +:+ " = news;");;
  append_code
    ("Compound Surface(" +:+ name +:+ ") = {"
       +:+ join "," (id_of <$> surfaces) +:+ "};");;
  mret {| dummy_id := name |}.

Definition add_surface_loop {A} `{HasId A} (surfaces : list A) : Py string :=
  name ← fresh SURFACELOOP_ID "surfloop";
  append_code (name +:+ " = newsl;");;
  append_code
    ("Surface Loop(" +:+ name +:+ ") = {"
       +:+ join "," (id_of <$> surfaces) +:+ "};");;
  mret name.

Definition add_volume (surface_loop : string) : Py string :=
  name ← fresh VOLUME_ID "vol";
  append_code (name +:+ " = newv;");;
  append_code ("Volume(" +:+ name +:+ ") = " +:+ surface_loop +:+ ";");;
  mret name.

Definition add_compound_volume {A} `{HasId A} (volumes : list A)
    : Py string :=
  name ← fresh VOLUME_ID "cv";
  append_code (name +:+ " = newv;");;
  append_code
    ("Compound Volume(" +:+ name +:+ ") = {"
       +:+ join "," (id_of <$> volumes) +:+ "};");;
  mret name.

Definition _new_physical_group (label : option string) : Py string :=
  bump PHYSICALGROUP_ID;;
  match label with
  | None => named PHYSICALGROUP_ID ""
  | Some l => mret (dq +:+ l +:+ dq)
  end.

(** The physical-group methods print their entity with [%s]; the argument
    here is that rendering. *)
Definition add_physical_point (point : string) (label : option string)
    : Py () :=
  label ← _new_physical_group label;
  append_code ("Physical Point(" +:+ label +:+ ") = " +:+ point +:+ ";").

Definition add_physical_line (line : string) (label : option string)
    : Py () :=
  label ← _new_physical_group label;
  append_code ("Physical Line(" +:+ label +:+ ") = " +:+ line +:+ ";").

Definition add_physical_surface (surface : string) (label : option string)
    : Py () :=
  label ← _new_physical_group label;
  append_code ("Physical Surface(" +:+ label +:+ ") = " +:+ surface +:+ ";").

Definition add_physical_volume (volume : string) (label : option string)
    : Py () :=
  label ← _new_physical_group label;
  append_code ("Physical Volume(" +:+ label +:+ ") = " +:+ volume +:+ ";").

(** [if cond: body] *)
Definition when (cond : bool) (body : Py ()) : Py () :=
  if cond then body else mret ().

Definition extrude {A} `{HasId A} (entity : string + A)
    (translation_axis rotation_axis point_on_axis : option (vec3 num))
    (angle : pyval num) : Py (Dummy * Dummy) :=
  bump EXTRUDE_ID;;
  let entity : Dummy + A :=
    match entity with
    | inl s => inl {| dummy_id := s |}
    | inr e => inr e
    end in
  name ← named EXTRUDE_ID "ex";
  match translation_axis, rotation_axis with
  | Some t, Some r =>
      match point_on_axis with
      | None => mthrow TypeError
      | Some p =>
          append_code
            (name +:+ "[] = Extrude{{" +:+ join "," (fmt_vec t) +:+ "}, {"
               +:+ join "," (fmt_vec r) +:+ "}, {" +:+ join "," (fmt_vec p)
               +:+ "}, " +:+ str_of_pyval angle +:+ "}{" +:+ id_of entity
               +:+ ";};")
      end
  | Some t, None =>
      append_code
        (name +:+ "[] = Extrude{" +:+ join "," (fmt_vec t) +:+ "}{"
           +:+ id_of entity +:+ ";};")
  | None, Some r =>
      match point_on_axis with
      | None => mthrow TypeError
      | Some p =>
          append_code
            (name +:+ "[] = Extrude{{" +:+ join "," (fmt_vec r) +:+ "}, {"
               +:+ join "," (fmt_vec p) +:+ "}, " +:+ str_of_pyval angle
               +:+ "}{" +:+ id_of entity +:+ ";};")
      end
  | None, None =>
      mthrow (RuntimeError "Specify at least translation or rotation.")
  end;;
  let top := {| dummy_id := name +:+ "[0]" |} in
  let extruded := {| dummy_id := name +:+ "[1]" |} in
  mret (top, extruded).

Definition add_boundary_layer {A B} `{HasId A, HasId B}
    (edges_list : option (list A)) (faces_list : option (list string))
    (nodes_list : option (list B))
    (anisomax hfar hwall_n hwall_t ratio thickness : option num)
    : Py string :=
  let edges_list := default [] edges_list in
  let faces_list := default [] faces_list in
  let nodes_list := default [] nodes_list in
  name ← fresh FIELD_ID "field";
  append_code (name +:+ " = newf;");;
  append_code ("Field[" +:+ name +:+ "] = BoundaryLayer;");;
  when (bool_decide (edges_list ≠ []))
    (append_code ("Field[" +:+ name +:+ "].EdgesList = {"
                    +:+ join "," (id_of <$> edges_list) +:+ "};"));;
  when (bool_decide (faces_list ≠ []))
    (append_code ("Field[" +:+ name +:+ "].FacesList = {"
                    +:+ join "," faces_list +:+ "};"));;
  when (bool_decide (nodes_list ≠ []))
    (append_code ("Field[" +:+ name +:+ "].NodesList = {"
                    +:+ join "," (id_of <$> nodes_list) +:+ "};"));;
  let setting (key : string) (x : option num) : Py () :=
    match x with
    | Some v =>
        when (truthy v)
          (append_code ("Field[" +:+ name +:+ "]." +:+ key +:+ "= "
                          +:+ fmt_r v +:+ ";"))
    | None => mret ()
    end in
  setting "hfar" hfar;;
  setting "hwall_t" hwall_t;;
  setting "hwall_n" hwall_n;;
  setting "ratio" ratio;;
  setting "thickness" thickness;;
  setting "AnisoMax" anisomax;;
  mret name.

Definition add_background_field (fields : list string)
    (aggregation_type : string) : Py string :=
  name ← fresh FIELD_ID "field";
  append_code (name +:+ " = newf;");;
  append_code ("Field[" +:+ name +:+ "] = " +:+ aggregation_type +:+ ";");;
  append_code
    ("Field[" +:+ name +:+ "].FieldsList = {" +:+ join ", " fields +:+ "};");;
  append_code ("Background Field = " +:+ name +:+ ";");;
  mret name.

Definition add_array (entities : list string) : Py string :=
  name ← fresh ARRAY_ID "array";
  append_code (name +:+ "[] = {" +:+ join "," entities +:+ "};");;
  mret (name +:+ "[]").

Definition add_comment (string : string) : Py () :=
  append_code ("// " +:+ string).

Definition add_raw_code (string_or_list : string + list string) : Py () :=
  match string_or_list with
  | inl s => append_code s
  | inr l => for_each l append_code
  end.

Definition add_polygon_loop (X : list (vec3 num)) (lcar : num) : Py LineLoopT :=
  p ← mapM (λ x, pt ← Point x lcar; add pt) X;
  lines ← mapM (λ '(a, b), l ← Line a b; add l) (zip p (drop 1 p));
  match last p, head p with
  | Some p_last, Some p_first =>
      l ← Line p_last p_first;
      l ← add l;
      ll ← LineLoop (lines ++ [l]);
      add ll
  | _, _ => mthrow IndexError
  end.

Definition add_polygon (X : list (vec3 num)) (lcar : num)
    (holes : option (list LineLoopT)) : Py Entity :=
  ll ← add_polygon_loop X lcar;
  s ← PlaneSurface ll holes;
  add s.

Definition add_rectangle (xmin xmax ymin ymax z lcar : num)
    (holes : option (list LineLoopT)) : Py Entity :=
  add_polygon
    [(xmin, ymin, z); (xmax, ymin, z); (xmax, ymax, z); (xmin, ymax, z)]
    lcar holes.

Definition add_ellipsoid (x0 radii : vec3 num) (lcar : num) (with_volume : bool)
    (holes : option (list string)) (label : option string)
    : Py (option string * string) :=
  let holes := default [] holes in
  let '(x0_0, x0_1, x0_2) := x0 in
  let '(radii_0, radii_1, radii_2) := radii in
  let a := lcar in
  let point x l := pt ← Point x l; add pt in
  p0 ← point x0 lcar;
  p1 ← point (nadd x0_0 radii_0, x0_1, x0_2) a;
  p2 ← point (x0_0, nadd x0_1 radii_1, x0_2) a;
  p3 ← point (x0_0, x0_1, nadd x0_2 radii_2) a;
  p4 ← point (nsub x0_0 radii_0, x0_1, x0_2) a;
  p5 ← point (x0_0, nsub x0_1 radii_1, x0_2) a;
  p6 ← point (x0_0, x0_1, nsub x0_2 radii_2) a;
  let arc ps := e ← EllipseArc ps; add e in
  c0 ← arc [p1; p0; p6; p6];
  c1 ← arc [p6; p0; p4; p4];
  c2 ← arc [p4; p0; p3; p3];
  c3 ← arc [p3; p0; p1; p1];
  c4 ← arc [p1; p0; p2; p2];
  c5 ← arc [p2; p0; p4; p4];
  c6 ← arc [p4; p0; p5; p5];
  c7 ← arc [p5; p0; p1; p1];
  c8 ← arc [p6; p0; p2; p2];
  c9 ← arc [p2; p0; p3; p3];
  c10 ← arc [p3; p0; p5; p5];
  c11 ← arc [p5; p0; p6; p6];
  let loop cs := l ← LineLoop cs; add l in
  ll0 ← loop [c4; c9; c3];
  ll1 ← loop [c8; neg c4; c0];
  ll2 ← loop [neg c9; c5; c2];
  ll3 ← loop [neg c5; neg c8; c1];
  ll4 ← loop [c7; neg c3; c10];
  ll5 ← loop [c11; neg c7; neg c0];
  ll6 ← loop [neg c10; neg c2; c6];
  ll7 ← loop [neg c1; neg c6; neg c11];
  let ll := [ll0; ll1; ll2; ll3; ll4; ll5; ll6; ll7] in
  s ← mapM add_ruled_surface ll;
  ns0 ← add_compound_surface (take 4 s);
  ns1 ← add_compound_surface (drop 4 s);
  let new_surfs := [ns0; ns1] in
  surface_loop ← add_surface_loop new_surfs;
  surface_loop ←
    (if bool_decide (holes ≠ [])
     then add_array ([surface_loop] ++ holes)
     else mret surface_loop);
  if with_volume then
    volume ← add_volume surface_loop;
    when (label_given label) (add_physical_volume volume label);;
    mret (Some volume, surface_loop)
  else
    mret (None, surface_loop).

Definition add_ball (x0 : vec3 num) (radius lcar : num) (with_volume : bool)
    (holes : option (list string)) (label : option string)
    : Py (option string * string) :=
  add_ellipsoid x0 (radius, radius, radius) lcar with_volume holes label.

Definition add_box (x0 x1 y0 y1 z0 z1 lcar : num) (with_volume : bool)
    (holes : option (list string)) (label : option string)
    : Py (option string * string) :=
  let holes := default [] holes in
  let point x := pt ← Point x lcar; add pt in
  p0 ← point (x1, y1, z1);
  p1 ← point (x1, y1, z0);
  p2 ← point (x1, y0, z1);
  p3 ← point (x1, y0, z0);
  p4 ← point (x0, y1, z1);
  p5 ← point (x0, y1, z0);
  p6 ← point (x0, y0, z1);
  p7 ← point (x0, y0, z0);
  let line a b := l ← Line a b; add l in
  e0 ← line p0 p1;
  e1 ← line p0 p2;
  e2 ← line p0 p4;
  e3 ← line p1 p3;
  e4 ← line p1 p5;
  e5 ← line p2 p3;
  e6 ← line p2 p6;
  e7 ← line p3 p7;
  e8 ← line p4 p5;
  e9 ← line p4 p6;
  e10 ← line p5 p7;
  e11 ← line p6 p7;
  let loop es := l ← LineLoop es; add l in
  ll0 ← loop [e0; e3; neg e5; neg e1];
  ll1 ← loop [e0; e4; neg e8; neg e2];
  ll2 ← loop [e1; e6; neg e9; neg e2];
  ll3 ← loop [e3; e7; neg e10; neg e4];
  ll4 ← loop [e5; e7; neg e11; neg e6];
  ll5 ← loop [e8; e10; neg e11; neg e9];
  let ll := [ll0; ll1; ll2; ll3; ll4; ll5] in
  s ← mapM add_ruled_surface ll;
  surface_loop ← add_surface_loop s;
  surface_loop ←
    (if bool_decide (holes ≠ [])
     then add_array ([surface_loop] ++ holes)
     else mret surface_loop);
  if with_volume then
    vol ← add_volume surface_loop;
    when (label_given label) (add_physical_volume vol label);;
    mret (Some vol, surface_loop)
  else
    mret (None, surface_loop).

(** [Rc], the rotation that puts a circle in the y-z plane *)
Definition Rc : mat3 num :=
  ((zero, zero, one), (one, zero, zero), (zero, one, zero)).

(** One round of the three: every curve of [previous] is extruded by the
    angle, its far end replaces it in [previous] and the surface it swept is
    appended to [all_surfaces]. *)
Definition extrude_round {A} `{HasId A} (rot_axis point_on_rot_axis : vec3 num)
    (angle : string) (previous : list A) (all_surfaces : list Dummy)
    : Py (list Dummy * list Dummy) :=
  r ← mapM (λ prev,
        extrude (inl ("Line{" +:+ id_of prev +:+ "}") : string + Dummy)
          None (Some rot_axis) (Some point_on_rot_axis) (VStr angle))
      previous;
  mret (fst <$> r, all_surfaces ++ (snd <$> r)).

Definition _add_torus_extrude_lines (irad orad lcar : num) (R : mat3 num)
    (x0 : vec3 num) (label : option string) : Py () :=
  add_comment (replicate_char 76 "-");;
  add_comment "Torus";;
  let x0t := dot_mv R (zero, orad, zero) in
  c ← Circle (vadd x0 x0t) irad lcar (dot_mm R Rc) None None;
  c ← add c;
  let rot_axis := (zero, zero, one) in
  let rot_axis := dot_mv R rot_axis in
  let point_on_rot_axis := (zero, zero, zero) in
  let point_on_rot_axis := vadd (dot_mv R point_on_rot_axis) x0 in
  let previous : list (Entity + Dummy) := inl <$> lines (line_loop c) in
  let angle := "2*Pi/3" in
  let all_surfaces : list Dummy := [] in
  '(previous, all_surfaces) ←
    fold_loop (λ '(previous, all_surfaces) i,
        add_comment ("Round no. " +:+ fmt_d (i + 1));;
        '(tops, all_surfaces) ←
          extrude_round rot_axis point_on_rot_axis angle
            previous all_surfaces;
        mret (inr <$> tops, all_surfaces))
      [0; 1; 2] (previous, all_surfaces);
  surface_loop ← add_surface_loop all_surfaces;
  vol ← add_volume surface_loop;
  when (label_given label) (add_physical_volume vol label);;
  add_comment (replicate_char 76 "-" +:+ nl).

Definition _add_torus_extrude_circle (irad orad lcar : num) (R : mat3 num)
    (x0 : vec3 num) (label : option string) : Py () :=
  add_comment (replicate_char 76 "-");;
  add_comment "Torus";;
  let x0t := dot_mv R (zero, orad, zero) in
  c ← Circle (vadd x0 x0t) irad lcar (dot_mm R Rc) None None;
  c ← add c;
  let rot_axis := (zero, zero, one) in
  let rot_axis := dot_mv R rot_axis in
  let point_on_rot_axis := (zero, zero, zero) in
  let point_on_rot_axis := vadd (dot_mv R point_on_rot_axis) x0 in
  let previous : Entity + Dummy := inl (plane_surface c) in
  let all_volumes : list Dummy := [] in
  let num_steps := 3 in
  '(previous, all_volumes) ←
    fold_loop (λ '(previous, all_volumes) (_ : N),
        '(top, vol) ←
          extrude (inl ("Surface{" +:+ id_of previous +:+ "}") : string + Dummy)
            None (Some rot_axis) (Some point_on_rot_axis)
            (VStr ("2*Pi/" +:+ fmt_d num_steps));
        mret (inr top : Entity + Dummy, all_volumes ++ [vol]))
      [0; 1; 2] (previous, all_volumes);
  vol ← add_compound_volume all_volumes;
  when (label_given label) (add_physical_volume vol label);;
  add_comment (replicate_char 76 "-" +:+ nl).

Definition add_torus (irad orad lcar : num) (R : mat3 num) (x0 : vec3 num)
    (label : option string) (variant : string) : Py () :=
  if decide (variant = "extrude_lines") then
    _add_torus_extrude_lines irad orad lcar R x0 label
  else if decide (variant = "extrude_circle") then
    _add_torus_extrude_circle irad orad lcar R x0 label
  else
    mthrow (ValueError ("Illegal variant '" +:+ variant +:+ "'.")).

Definition _add_pipe_by_rectangle_rotation (outer_radius inner_radius
    length : num) (R : mat3 num) (x0 : vec3 num) (label : option string)
    (lcar : num) : Py () :=
  add_comment "Define rectangle.";;
  let X := [ (zero, outer_radius, nmul (nopp half) length);
             (zero, outer_radius, nmul half length);
             (zero, inner_radius, nmul half length);
             (zero, inner_radius, nmul (nopp half) length) ] in
  let X := (λ x, vadd (dot_mv R x) x0) <$> X in
  p ← mapM (λ x, pt ← Point x lcar; add pt) X;
  match p with
  | [p0; p1; p2; p3] =>
      let line a b := l ← Line a b; add l in
      e0 ← line p0 p1;
      e1 ← line p1 p2;
      e2 ← line p2 p3;
      e3 ← line p3 p0;
      let e := [e0; e1; e2; e3] in
      let rot_axis := (zero, zero, one) in
      let rot_axis := dot_mv R rot_axis in
      let point_on_rot_axis := (zero, zero, zero) in
      let point_on_rot_axis := vadd (dot_mv R point_on_rot_axis) x0 in
      let previous : list (Entity + Dummy) := inl <$> e in
      let angle := "2*Pi/3" in
      let all_surfaces : list Dummy := [] in
      add_comment "Extrude in 3 steps.";;
      '(previous, all_surfaces) ←
        fold_loop (λ '(previous, all_surfaces) i,
            add_comment ("Step " +:+ fmt_d (i + 1));;
            '(tops, all_surfaces) ←
              extrude_round rot_axis point_on_rot_axis angle
                previous all_surfaces;
            mret (inr <$> tops, all_surfaces))
          [0; 1; 2] (previous, all_surfaces);
      surface_loop ← add_surface_loop all_surfaces;
      vol ← add_volume surface_loop;
      when (label_given label) (add_physical_volume vol label)
  | _ => mthrow IndexError
  end.

Definition _add_pipe_by_circle_extrusion (outer_radius inner_radius
    length : num) (R : mat3 num) (x0 : vec3 num) (label : option string)
    (lcar : num) : Py Dummy :=
  c_inner ← Circle x0 inner_radius lcar (dot_mm R Rc) None (Some false);
  c_inner ← add c_inner;
  circ ← Circle x0 outer_radius lcar (dot_mm R Rc)
           (Some [line_loop c_inner]) None;
  circ ← add circ;
  '(_, vol) ←
    extrude (inl ("Surface{" +:+ id_of (plane_surface circ) +:+ "}")
               : string + Dummy)
      (Some (dot_mv R (length, zero, zero))) None None VNone;
  when (label_given label) (add_physical_volume (str_Dummy vol) label);;
  mret vol.

Definition add_pipe (outer_radius inner_radius length : num) (R : mat3 num)
    (x0 : vec3 num) (label : option string) (lcar : num) (variant : string)
    : Py (option Dummy) :=
  if decide (variant = "rectangle_rotation") then
    _add_pipe_by_rectangle_rotation outer_radius inner_radius length
      R x0 label lcar;;
    mret None
  else if decide (variant = "circle_extrusion") then
    vol ← _add_pipe_by_circle_extrusion outer_radius inner_radius length
            R x0 label lcar;
    mret (Some vol)
  else
    mthrow (ValueError ("Illegal variant '" +:+ variant +:+ "'.")).

(** The session only grows: the log is extended at its end and no counter
    goes down. *)
Definition grows (s s' : State) : Prop :=
  _GMSH_CODE (self s) `prefix_of` _GMSH_CODE (self s') ∧
  ∀ c, counter_of c (self s) ≤ counter_of c (self s').

(** A statement of an extrusion opens with its name, [ex] and a number. *)
Definition is_extrusion (stmt : string) : bool := startswith stmt "ex".

(** The session after [n] extrusions that appended the statements [out] *)
Definition extruded (n : N) (out : list string) (s : State) : State :=
  {| self :=
       {| _SURFACE_ID := _SURFACE_ID (self s);
          _SURFACELOOP_ID := _SURFACELOOP_ID (self s);
          _VOLUME_ID := _VOLUME_ID (self s);
          _ELLIPSE_ID := _ELLIPSE_ID (self s);
          _EXTRUDE_ID := _EXTRUDE_ID (self s) + n;
          _ARRAY_ID := _ARRAY_ID (self s);
          _FIELD_ID := _FIELD_ID (self s);
          _PHYSICALGROUP_ID := _PHYSICALGROUP_ID (self s);
          _GMSH_CODE := _GMSH_CODE (self s) ++ out |};
     ids := ids s |}.

(** The session after statements [out] were appended and the entity classes
    moved on to [w] *)
Definition logged (out : list string) (w : class_ids) (s : State) : State :=
  {| self :=
       {| _SURFACE_ID := _SURFACE_ID (self s);
          _SURFACELOOP_ID := _SURFACELOOP_ID (self s);
          _VOLUME_ID := _VOLUME_ID (self s);
          _ELLIPSE_ID := _ELLIPSE_ID (self s);
          _EXTRUDE_ID := _EXTRUDE_ID (self s);
          _ARRAY_ID := _ARRAY_ID (self s);
          _FIELD_ID := _FIELD_ID (self s);
          _PHYSICALGROUP_ID := _PHYSICALGROUP_ID (self s);
          _GMSH_CODE := _GMSH_CODE (self s) ++ out |};
     ids := w |}.

(** ** Calls

    One constructor per public method, with the arguments of the call.  A
    script is a sequence of calls; what a call returns may be passed to later
    ones, which the arguments range over. *)

Inductive call : Type :=
  | call_add {A} `{HasCode A} (entity : A)
  | call_add_ruled_surface {A} `{HasId A} (line_loop : A)
  | call_add_compound_surface {A} `{HasId A} (surfaces : list A)
  | call_add_surface_loop {A} `{HasId A} (surfaces : list A)
  | call_add_volume (surface_loop : string)
  | call_add_compound_volume {A} `{HasId A} (volumes : list A)
  | call_add_physical_point (point : string) (label : option string)
  | call_add_physical_line (line : string) (label : option string)
  | call_add_physical_surface (surface : string) (label : option string)
  | call_add_physical_volume (volume : string) (label : option string)
  | call_extrude {A} `{HasId A} (entity : string + A)
      (translation_axis rotation_axis point_on_axis : option (vec3 num))
      (angle : pyval num)
  | call_add_boundary_layer {A B} `{HasId A, HasId B}
      (edges_list : option (list A)) (faces_list : option (list string))
      (nodes_list : option (list B))
      (anisomax hfar hwall_n hwall_t ratio thickness : option num)
  | call_add_background_field (fields : list string)
      (aggregation_type : string)
  | call_add_array (entities : list string)
  | call_add_comment (string : string)
  | call_add_raw_code (string_or_list : string + list string)
  | call_add_rectangle (xmin xmax ymin ymax z lcar : num)
      (holes : option (list LineLoopT))
  | call_add_polygon_loop (X : list (vec3 num)) (lcar : num)
  | call_add_polygon (X : list (vec3 num)) (lcar : num)
      (holes : option (list LineLoopT))
  | call_add_ellipsoid (x0 radii : vec3 num) (lcar : num) (with_volume : bool)
      (holes : option (list string)) (label : option string)
  | call_add_ball (x0 : vec3 num) (radius lcar : num) (with_volume : bool)
      (holes : option (list string)) (label : option string)
  | call_add_box (x0 x1 y0 y1 z0 z1 lcar : num) (with_volume : bool)
      (holes : option (list string)) (label : option string)
  | call_add_torus (irad orad lcar : num) (R : mat3 num) (x0 : vec3 num)
      (label : option string) (variant : string)
  | call_add_pipe (outer_radius inner_radius length : num) (R : mat3 num)
      (x0 : vec3 num) (label : option string) (lcar : num) (variant : string).

(** Run a call for its effect on the session. *)
Definition exec (c : call) : Py () :=
  match c with
  | call_add entity => add entity;; mret ()
  | call_add_ruled_surface line_loop =>
      add_ruled_surface line_loop;; mret ()
  | call_add_compound_surface surfaces =>
      add_compound_surface surfaces;; mret ()
  | call_add_surface_loop surfaces => add_surface_loop surfaces;; mret ()
  | call_add_volume surface_loop => add_volume surface_loop;; mret ()
  | call_add_compound_volume volumes => add_compound_volume volumes;; mret ()
  | call_add_physical_point point label => add_physical_point point label
  | call_add_physical_line line label => add_physical_line line label
  | call_add_physical_surface surface label =>
      add_physical_surface surface label
  | call_add_physical_volume volume label => add_physical_volume volume label
  | call_extrude entity translation_axis rotation_axis point_on_axis angle =>
      extrude entity translation_axis rotation_axis point_on_axis angle;;
      mret ()
  | call_add_boundary_layer edges_list faces_list nodes_list anisomax hfar
      hwall_n hwall_t ratio thickness =>
      add_boundary_layer edges_list faces_list nodes_list anisomax hfar
        hwall_n hwall_t ratio thickness;;
      mret ()
  | call_add_background_field fields aggregation_type =>
      add_background_field fields aggregation_type;; mret ()
  | call_add_array entities => add_array entities;; mret ()
  | call_add_comment string => add_comment string
  | call_add_raw_code string_or_list => add_raw_code string_or_list
  | call_add_rectangle xmin xmax ymin ymax z lcar holes =>
      add_rectangle xmin xmax ymin ymax z lcar holes;; mret ()
  | call_add_polygon_loop X lcar => add_polygon_loop X lcar;; mret ()
  | call_add_polygon X lcar holes => add_polygon X lcar holes;; mret ()
  | call_add_ellipsoid x0 radii lcar with_volume holes label =>
      add_ellipsoid x0 radii lcar with_volume holes label;; mret ()
  | call_add_ball x0 radius lcar with_volume holes label =>
      add_ball x0 radius lcar with_volume holes label;; mret ()
  | call_add_box x0 x1 y0 y1 z0 z1 lcar with_volume holes label =>
      add_box x0 x1 y0 y1 z0 z1 lcar with_volume holes label;; mret ()
  | call_add_torus irad orad lcar R x0 label variant =>
      add_torus irad orad lcar R x0 label variant
  | call_add_pipe outer_radius inner_radius length R x0 label lcar variant =>
      add_pipe outer_radius inner_radius length R x0 label lcar variant;;
      mret ()
  end.

(** The session after a script: every call runs in the state its predecessor
    left, whether that one returned or raised. *)
Definition run (script : list call) (s : State) : State :=
  foldl (λ s c, state_after (exec c) s) s script.

(** A new session, beside class counters [w]. *)
Definition start (w : class_ids) : State := {| self := __init__; ids := w |}.

End Session.
End Builtin.

(** * The OpenCASCADE session: [pygmsh/opencascade/geometry.py] *)

Module OpenCascade.

(** ** The entity classes

    [LineBase], [SurfaceBase] and [VolumeBase] are the three dimensional
    capabilities; the shapes ([Rectangle], [Disk], [Ball], [Box], [Cylinder],
    [Torus]) derive from them.  The session tests objects with [isinstance]
    against the three bases and [hasattr(_, 'surface')], and reads [.id] and
    [.code]. *)

Inductive dim_type : Type := LineBase | SurfaceBase | VolumeBase.

Global Instance dim_type_eq_dec : EqDecision dim_type.
Proof. solve_decision. Defined.

Record Entity : Type := {
  base : option dim_type;      (* the base the object is an instance of *)
  id : string;
  is_list : option bool;       (* [is_list] as passed to the constructor *)
  surface : option string;     (* [.surface.id], when there is a [.surface] *)
}.

Record Dummy : Type := { dummy_id : string }.

Record Shape : Type := { entity : Entity; code : string }.

Global Instance Entity_id : HasId Entity := id.
Global Instance Dummy_has_id : HasId Dummy := dummy_id.

Definition isinstance (e : Entity) (d : dim_type) : bool :=
  bool_decide (base e = Some d).

(** The constructors of the shapes take whatever the caller passes
    ([*args, **kwargs]) and may reject it; the bases form their [.id] from
    [id0] and [is_list]. *)
Class EntityClasses (num : Type) := {
  class_ids : Type;
  call_args : Type;
  Rectangle_init : call_args → class_ids → outcome Shape * class_ids;
  Disk_init : call_args → class_ids → outcome Shape * class_ids;
  Ball_init : call_args → class_ids → outcome Shape * class_ids;
  Box_init : call_args → class_ids → outcome Shape * class_ids;
  Cylinder_init : call_args → class_ids → outcome Shape * class_ids;
  Torus_init : call_args → class_ids → outcome Shape * class_ids;
  base_id : dim_type → string → option bool → string;
  (* ['{}'.format(type(e))] *)
  type_name : Entity → string;
  (* [__version__] *)
  version : string;
  (* [get_gmsh_major_version()] *)
  get_gmsh_major_version : Z;
}.

Inductive counter : Type := BOOLEAN_ID | EXTRUDE_ID.

Record Geometry : Type := {
  _BOOLEAN_ID : N;
  _EXTRUDE_ID : N;
  _GMSH_MAJOR : Z;
  _GMSH_CODE : list string;
}.

Definition counter_of (c : counter) (g : Geometry) : N :=
  match c with
  | BOOLEAN_ID => _BOOLEAN_ID g
  | EXTRUDE_ID => _EXTRUDE_ID g
  end.

(** [legal_dim_types] *)
Definition legal_dim_types (d : dim_type) : string :=
  match d with
  | LineBase => "Line"
  | SurfaceBase => "Surface"
  | VolumeBase => "Volume"
  end.

Section Session.
Context {num : Type} `{Numeric num} `{EntityClasses num}.

Record State : Type := { self : Geometry; ids : class_ids }.

Local Abbreviation Py := (M State).

(** [self._GMSH_CODE.append(stmt)] *)
Definition append_code (stmt : string) : Py () :=
  modify (λ s,
    {| self := {| _BOOLEAN_ID := _BOOLEAN_ID (self s);
                  _EXTRUDE_ID := _EXTRUDE_ID (self s);
                  _GMSH_MAJOR := _GMSH_MAJOR (self s);
                  _GMSH_CODE := _GMSH_CODE (self s) ++ [stmt] |};
       ids := ids s |}).

(** [self._C += 1] *)
Definition bump (c : counter) : Py () :=
  modify (λ s,
    {| self :=
         match c with
         | BOOLEAN_ID =>
             {| _BOOLEAN_ID := _BOOLEAN_ID (self s) + 1;
                _EXTRUDE_ID := _EXTRUDE_ID (self s);
                _GMSH_MAJOR := _GMSH_MAJOR (self s);
                _GMSH_CODE := _GMSH_CODE (self s) |}
         | EXTRUDE_ID =>
             {| _BOOLEAN_ID := _BOOLEAN_ID (self s);
                _EXTRUDE_ID := _EXTRUDE_ID (self s) + 1;
                _GMSH_MAJOR := _GMSH_MAJOR (self s);
                _GMSH_CODE := _GMSH_CODE (self s) |}
         end;
       ids := ids s |}).

(** [name = prefix + '{}'.format(self._C)] *)
Definition named (c : counter) (prefix : string) : Py string :=
  s ← get;
  mret (prefix +:+ fmt_d (counter_of c (self s))).

(** [self._C += 1; name = prefix + '{}'.format(self._C)], the two lines by
    which a method allocates a name *)
Definition fresh (c : counter) (prefix : string) : Py string :=
  bump c;;
  named c prefix.

(** Calling the constructor of a shape *)
Definition construct
    (init : class_ids → outcome Shape * class_ids) : Py Shape :=
  λ s, let '(r, w) := init (ids s) in (r, {| self := self s; ids := w |}).

(** [base(id0, is_list)] for one of the three bases *)
Definition new_base (d : dim_type) (id0 : string) (is_list : option bool)
    : Entity :=
  {| base := Some d; id := base_id d id0 is_list; is_list := is_list;
     surface := None |}.

Definition __init__ (characteristic_length_min
    characteristic_length_max : option num) : Geometry :=
  let code :=
    [ "// This code was created by PyGmsh v" +:+ version +:+ ".";
      "SetFactory(" +:+ dq +:+ "OpenCASCADE" +:+ dq +:+ ");" ] in
  let code :=
    match characteristic_length_min with
    | Some x => code ++ ["Mesh.CharacteristicLengthMin = " +:+ fmt_s x +:+ ";"]
    | None => code
    end in
  let code :=
    match characteristic_length_max with
    | Some x => code ++ ["Mesh.CharacteristicLengthMax = " +:+ fmt_s x +:+ ";"]
    | None => code
    end in
  {| _BOOLEAN_ID := 0;
     _EXTRUDE_ID := 0;
     _GMSH_MAJOR := get_gmsh_major_version;
     _GMSH_CODE := code |}.

Definition get_code (g : Geometry) : string :=
  join nl (_GMSH_CODE g).

Definition get_gmsh_major (g : Geometry) : Z := _GMSH_MAJOR g.

Definition add_shape (init : call_args → class_ids → outcome Shape * class_ids)
    (args : call_args) : Py Shape :=
  p ← construct (init args);
  append_code (code p);;
  mret p.

Definition add_rectangle := add_shape Rectangle_init.
Definition add_disk := add_shape Disk_init.
Definition add_ball := add_shape Ball_init.
Definition add_box := add_shape Box_init.
Definition add_cylinder := add_shape Cylinder_init.
Definition add_torus := add_shape Torus_init.

(** [assert cond, msg] *)
Definition assert (cond : bool) (msg : string) : Py () :=
  if cond then mret () else mthrow (AssertionError msg).

Definition _boolean_operation (operation : string)
    (input_entities tool_entities : list Entity) (delete : bool)
    : Py Entity :=
  bump BOOLEAN_ID;;
  first ← match input_entities with
          | e :: _ => mret e
          | [] => mthrow IndexError
          end;
  let dim_type :=
    list_find (isinstance first) [LineBase; SurfaceBase; VolumeBase] in
  match dim_type with
  | None =>
      mthrow (AssertionError ("Illegal input type '" +:+ type_name first
                                +:+ "' for Boolean operation."))
  | Some (_, dim_type) =>
      for_each (drop 1 input_entities ++ tool_entities) (λ e,
        assert (isinstance e dim_type)
          ("Incompatible input type '" +:+ type_name e
             +:+ "' for Boolean operation."));;
      name ← named BOOLEAN_ID "bo";
      let delete_clause := if delete then "Delete;" else "" in
      append_code
        (name +:+ "[] = " +:+ operation +:+ "{" +:+ legal_dim_types dim_type
           +:+ " {" +:+ join "," (id_of <$> input_entities) +:+ "}; "
           +:+ delete_clause +:+ "} {" +:+ legal_dim_types dim_type
           +:+ " {" +:+ join "," (id_of <$> tool_entities) +:+ "}; "
           +:+ delete_clause +:+ "};");;
      mret (new_base dim_type name (Some true))
  end.

Definition boolean_intersection (entities : list Entity) (delete : bool)
    : Py Entity :=
  assert (bool_decide (1 < length entities)%nat) "";;
  match entities with
  | e :: rest => _boolean_operation "BooleanIntersection" [e] rest delete
  | [] => mthrow IndexError
  end.

Definition boolean_union (entities : list Entity) (delete : bool)
    : Py Entity :=
  match entities with
  | e :: rest => _boolean_operation "BooleanUnion" [e] rest delete
  | [] => mthrow IndexError
  end.

Definition boolean_difference (input_entities tool_entities : list Entity)
    (delete : bool) : Py Entity :=
  _boolean_operation "BooleanDifference" input_entities tool_entities delete.

Definition boolean_fragments (input_entities tool_entities : list Entity)
    (delete : bool) : Py Entity :=
  _boolean_operation "BooleanFragments" input_entities tool_entities delete.

Definition extrude (input_entity : string + Entity)
    (translation_axis : list num) : Py ((Entity + Dummy) * (Entity + Dummy)) :=
  bump EXTRUDE_ID;;
  entity ←
    match input_entity with
    | inl s => mret {| dummy_id := s |}
    | inr e =>
        if isinstance e SurfaceBase then
          mret {| dummy_id := "Surface{" +:+ id e +:+ "}" |}
        else
          match surface e with
          | Some surface_id =>
              mret {| dummy_id := "Surface{" +:+ surface_id +:+ "}" |}
          | None =>
              assert (isinstance e LineBase) "Illegal extrude entity.";;
              mret {| dummy_id := "Line{" +:+ id e +:+ "}" |}
          end
    end;
  name ← named EXTRUDE_ID "ex";
  append_code
    (name +:+ "[] = Extrude{" +:+ join "," (fmt_r <$> translation_axis)
       +:+ "}{" +:+ dummy_id entity +:+ ";};");;
  let top := name +:+ "[0]" in
  let extruded := name +:+ "[1]" in
  match input_entity with
  | inr e =>
      if isinstance e LineBase then
        mret (inl (new_base LineBase top None),
              inl (new_base SurfaceBase extruded None))
      else if isinstance e SurfaceBase then
        mret (inl (new_base SurfaceBase top None),
              inl (new_base VolumeBase extruded None))
      else
        mret (inr {| dummy_id := top |}, inr {| dummy_id := extruded |})
  | inl _ =>
      mret (inr {| dummy_id := top |}, inr {| dummy_id := extruded |})
  end.

(** The statement of a boolean operation *)
Definition boolean_statement (name operation : string) (d : dim_type)
    (input_entities tool_entities : list Entity) (delete : bool) : string :=
  let delete_clause := if delete then "Delete;" else "" in
  name +:+ "[] = " +:+ operation +:+ "{" +:+ legal_dim_types d
    +:+ " {" +:+ join "," (id_of <$> input_entities) +:+ "}; "
    +:+ delete_clause +:+ "} {" +:+ legal_dim_types d
    +:+ " {" +:+ join "," (id_of <$> tool_entities) +:+ "}; "
    +:+ delete_clause +:+ "};".

(** All entities are instances of the base [d]. *)
Definition all_of (d : dim_type) (es : list Entity) : bool :=
  forallb (λ e, isinstance e d) es.

(** The entities share one dimensional capability. *)
Definition uniform (es : list Entity) : bool :=
  existsb (λ d, all_of d es) [LineBase; SurfaceBase; VolumeBase].

(** The session only grows: the log is extended at its end and no counter
    goes down. *)
Definition grows (s s' : State) : Prop :=
  _GMSH_CODE (self s) `prefix_of` _GMSH_CODE (self s') ∧
  ∀ c, counter_of c (self s) ≤ counter_of c (self s').

(** ** Calls *)

Inductive call : Type :=
  | call_add_rectangle (args : call_args)
  | call_add_disk (args : call_args)
  | call_add_ball (args : call_args)
  | call_add_box (args : call_args)
  | call_add_cylinder (args : call_args)
  | call_add_torus (args : call_args)
  | call_boolean_intersection (entities : list Entity) (delete : bool)
  | call_boolean_union (entities : list Entity) (delete : bool)
  | call_boolean_difference (input_entities tool_entities : list Entity)
      (delete : bool)
  | call_boolean_fragments (input_entities tool_entities : list Entity)
      (delete : bool)
  | call_extrude (input_entity : string + Entity)
      (translation_axis : list num).

Definition exec (c : call) : Py () :=
  match c with
  | call_add_rectangle args => add_rectangle args;; mret ()
  | call_add_disk args => add_disk args;; mret ()
  | call_add_ball args => add_ball args;; mret ()
  | call_add_box args => add_box args;; mret ()
  | call_add_cylinder args => add_cylinder args;; mret ()
  | call_add_torus args => add_torus args;; mret ()
  | call_boolean_intersection entities delete =>
      boolean_intersection entities delete;; mret ()
  | call_boolean_union entities delete =>
      boolean_union entities delete;; mret ()
  | call_boolean_difference input_entities tool_entities delete =>
      boolean_difference input_entities tool_entities delete;; mret ()
  | call_boolean_fragments input_entities tool_entities delete =>
      boolean_fragments input_entities tool_entities delete;; mret ()
  | call_extrude input_entity translation_axis =>
      extrude input_entity translation_axis;; mret ()
  end.

Definition run (script : list call) (s : State) : State :=
  foldl (λ s c, state_after (exec c) s) s script.

Definition start (characteristic_length_min
    characteristic_length_max : option num) (w : class_ids) : State :=
  {| self := __init__ characteristic_length_min characteristic_length_max;
     ids := w |}.

End Session.
End OpenCascade.

(** * Names

    The names an allocator yields when it is asked once after each of the
    given scripts. *)
Fixpoint allocations {St Script} (run : Script → St → St)
    (alloc : M St string) (scripts : list Script) (s : St) : list string :=
  match scripts with
  | [] => []
  | script :: rest =>
      let '(r, s') := alloc (run script s) in
      match r with
      | Returns name => name :: allocations run alloc rest s'
      | Raises _ => allocations run alloc rest s'
      end
  end.

(** The prefixes of the two sessions: surfaces, surface loops, volumes,
    compound volumes, extrusions, fields, arrays, physical groups (a bare
    number) and boolean operations. *)
Definition name_prefixes : list string :=
  ["surf"; "surfloop"; "vol"; "cv"; "ex"; "field"; "array"; ""; "bo"].

(** A statement that defines a volume *)
Definition defines_volume (stmt : string) : bool :=
  startswith stmt "Volume(" || startswith stmt "Compound Volume(".

(** * Sample instances

    Exact rationals for the numbers and a plain implementation of the entity
    classes, to evaluate the sessions on concrete inputs. *)

Definition fmt_Q (q : Q) : string :=
  let q := Qred q in
  if decide (Qden q = 1%positive) then pretty (Qnum q) +:+ ".0"
  else pretty (Qnum q) +:+ "/" +:+ pretty (Qden q).

Global Instance Q_numeric : Numeric Q := {|
  zero := 0%Q;
  one := 1%Q;
  half := (1 # 2)%Q;
  nopp := Qopp;
  nadd := Qplus;
  nsub := Qminus;
  nmul := Qmult;
  nlt := Qlt;
  truthy := λ q, negb (Qeq_bool q 0);
  fmt_s := fmt_Q;
  fmt_r := fmt_Q;
|}.

Module Sample.

(** Modelled from the spec: the entity classes of the built-in session
    ([Point], [Line], [EllipseArc], [LineLoop], [PlaneSurface], [Circle]),
    which live in modules of their own.  Each class numbers its objects from
    one and names them by a prefix and the number; the code of an object is
    the assignment of a new id followed by the constructor statement. *)
Record ids : Type := { points : N; curves : N; loops : N; surfaces : N }.

Definition define (name newid stmt : string) : string * string :=
  (name, name +:+ " = " +:+ newid +:+ ";" +:+ nl +:+ stmt).

Definition point_init (x : vec3 Q) (lcar : Q) (w : ids)
    : (string * string) * ids :=
  let n := points w + 1 in
  let name := "p" +:+ fmt_d n in
  (define name "newp"
     ("Point(" +:+ name +:+ ") = {" +:+ join ", " (fmt_vec x) +:+ ", "
        +:+ fmt_r lcar +:+ "};"),
   {| points := n; curves := curves w; loops := loops w;
      surfaces := surfaces w |}).

Definition curve_init (kind : string) (ps : list Builtin.Entity) (w : ids)
    : (string * string) * ids :=
  let n := curves w + 1 in
  let name := "l" +:+ fmt_d n in
  (define name "newl"
     (kind +:+ "(" +:+ name +:+ ") = {"
        +:+ join ", " (Builtin.id <$> ps) +:+ "};"),
   {| points := points w; curves := n; loops := loops w;
      surfaces := surfaces w |}).

Definition loop_init (cs : list Builtin.Entity) (w : ids)
    : (string * string) * ids :=
  let n := loops w + 1 in
  let name := "ll" +:+ fmt_d n in
  (define name "newll"
     ("Line Loop(" +:+ name +:+ ") = {"
        +:+ join ", " (Builtin.id <$> cs) +:+ "};"),
   {| points := points w; curves := curves w; loops := n;
      surfaces := surfaces w |}).

Definition surface_init (ll : Builtin.LineLoopT)
    (holes : option (list Builtin.LineLoopT)) (w : ids)
    : (string * string) * ids :=
  let n := surfaces w + 1 in
  let name := "s" +:+ fmt_d n in
  (define name "news"
     ("Plane Surface(" +:+ name +:+ ") = {"
        +:+ join ", " (Builtin.ll_id <$> ll :: default [] holes) +:+ "};"),
   {| points := points w; curves := curves w; loops := loops w;
      surfaces := n |}).

(** A circle of three arcs around [x0], with its loop and its surface. *)
Definition circle_init (x0 : vec3 Q) (radius lcar : Q) (R : mat3 Q)
    (holes : option (list Builtin.LineLoopT)) (make_surface : option bool)
    (w : ids) : Builtin.CircleT * ids :=
  let '(c, w) := point_init x0 lcar w in
  let centre := {| Builtin.cls := Builtin.cPoint; Builtin.id := c.1;
                   Builtin.code := c.2 |} in
  let arc w :=
    let '(a, w) := curve_init "Circle" [centre] w in
    ({| Builtin.cls := Builtin.cOther; Builtin.id := a.1;
        Builtin.code := a.2 |}, w) in
  let '(a1, w) := arc w in
  let '(a2, w) := arc w in
  let '(a3, w) := arc w in
  let '(l, w) := loop_init [a1; a2; a3] w in
  let ll := {| Builtin.ll_id := l.1; Builtin.ll_code := l.2;
               Builtin.lines := [a1; a2; a3] |} in
  let '(s, w) := surface_init ll holes w in
  let ps := {| Builtin.cls := Builtin.cPlaneSurface; Builtin.id := s.1;
               Builtin.code := s.2 |} in
  ({| Builtin.circle_code :=
        join nl [c.2; Builtin.code a1; Builtin.code a2; Builtin.code a3;
                 l.2; s.2];
      Builtin.line_loop := ll;
      Builtin.plane_surface := ps |}, w).

Global Instance builtin_classes : Builtin.EntityClasses Q := {|
  Builtin.class_ids := ids;
  Builtin.Point_init := point_init;
  Builtin.Line_init := λ p0 p1, curve_init "Line" [p0; p1];
  Builtin.EllipseArc_init := curve_init "Ellipse";
  Builtin.LineLoop_init := loop_init;
  Builtin.PlaneSurface_init := surface_init;
  Builtin.Circle_init := circle_init;
  Builtin.neg := λ e,
    {| Builtin.cls := Builtin.cls e; Builtin.id := "-" +:+ Builtin.id e;
       Builtin.code := Builtin.code e |};
  Builtin.str_Dummy := Builtin.dummy_id;
  Builtin.version := "1.0";
|}.

Definition no_ids : ids :=
  {| points := 0; curves := 0; loops := 0; surfaces := 0 |}.

(** Modelled from the spec: the entity classes of the OpenCASCADE session
    (the three bases and the shapes), which live in modules of their own.  A
    shape is built from its dimensional kind and its id; a list reference is
    marked by brackets. *)
Definition shape_init (d : OpenCascade.dim_type) (kind : string)
    (args : string) (w : N)
    : outcome OpenCascade.Shape * N :=
  let n := w + 1 in
  let name := "s" +:+ fmt_d n in
  (Returns
     {| OpenCascade.entity :=
          {| OpenCascade.base := Some d; OpenCascade.id := name;
             OpenCascade.is_list := None; OpenCascade.surface := None |};
        OpenCascade.code :=
          name +:+ " = news;" +:+ nl +:+ kind +:+ "(" +:+ name +:+ ") = {"
            +:+ args +:+ "};" |}, n).

Global Instance occ_classes : OpenCascade.EntityClasses Q := {|
  OpenCascade.class_ids := N;
  OpenCascade.call_args := string;
  OpenCascade.Rectangle_init := shape_init OpenCascade.SurfaceBase "Rectangle";
  OpenCascade.Disk_init := shape_init OpenCascade.SurfaceBase "Disk";
  OpenCascade.Ball_init := shape_init OpenCascade.VolumeBase "Sphere";
  OpenCascade.Box_init := shape_init OpenCascade.VolumeBase "Box";
  OpenCascade.Cylinder_init := shape_init OpenCascade.VolumeBase "Cylinder";
  OpenCascade.Torus_init := shape_init OpenCascade.VolumeBase "Torus";
  OpenCascade.base_id := λ _ id0 is_list,
    if is_list is Some true then id0 +:+ "[]" else id0;
  OpenCascade.type_name := λ e,
    match OpenCascade.base e with
    | Some d => OpenCascade.legal_dim_types d +:+ "Base"
    | None => "object"
    end;
  OpenCascade.version := "1.0";
  OpenCascade.get_gmsh_major_version := 3%Z;
|}.

Definition volume (name : string) : OpenCascade.Entity :=
  {| OpenCascade.base := Some OpenCascade.VolumeBase;
     OpenCascade.id := name; OpenCascade.is_list := None;
     OpenCascade.surface := None |}.

Definition flat (name : string) : OpenCascade.Entity :=
  {| OpenCascade.base := Some OpenCascade.SurfaceBase;
     OpenCascade.id := name; OpenCascade.is_list := None;
     OpenCascade.surface := None |}.

Definition identity : mat3 Q := ((1, 0, 0), (0, 1, 0), (0, 0, 1))%Q.
Definition origin : vec3 Q := (0, 0, 0)%Q.

(** New sessions *)
Definition builtin_session : Builtin.State := Builtin.start no_ids.
Definition occ_session : OpenCascade.State := OpenCascade.start None None 0.

End Sample.

(** * Properties *)

(** ** Strings *)

Lemma last_char_app (s t : string) (c : ascii) :
  last_char (s +:+ String c t) = last_char (String c t).
Proof.
  induction s as [|a s IH]; [done|].
  change (last_char (String a (s +:+ String c t)) = last_char (String c t)).
  rewrite <- IH. simpl. by destruct s.
Qed.

Lemma append_nil_l (s : string) : "" +:+ s = s.
Proof. done. Qed.

Lemma append_cons_l (a : ascii) (s t : string) :
  String a s +:+ t = String a (s +:+ t).
Proof. done. Qed.

Lemma join_cons (sep x y : string) (l : list string) :
  join sep (x :: y :: l) = x +:+ sep +:+ join sep (y :: l).
Proof. done. Qed.

Lemma last_char_app_r (s t : string) (c : ascii) :
  last_char t = Some c → last_char (s +:+ t) = Some c.
Proof.
  destruct t as [|a t]; [done|]. intros Ht. by rewrite last_char_app.
Qed.

Lemma join_last (sep x : string) (l : list string) (c : ascii) :
  last l = Some x → last_char x = Some c → last_char (join sep l) = Some c.
Proof.
  intros Hl Hx. induction l as [|a l IH]; [done|].
  destruct l as [|b l].
  - by injection Hl as ->.
  - rewrite join_cons. do 2 apply last_char_app_r. by apply IH.
Qed.

Lemma pretty_N_char_digit (x : N) : is_digit (pretty_N_char x) = true.
Proof. unfold pretty_N_char. by repeat case_match. Qed.

Lemma pretty_N_go_digits (x : N) (s : string) :
  all_chars is_digit s = true → all_chars is_digit (pretty_N_go x s) = true.
Proof.
  revert s. induction (N.lt_wf_0 x) as [x _ IH]; intros s Hs.
  destruct (decide (x = 0)) as [->|Hx]; [by rewrite pretty_N_go_0|].
  rewrite pretty_N_go_step by lia.
  apply IH; [apply N.div_lt; lia|].
  simpl. by rewrite pretty_N_char_digit, Hs.
Qed.

Lemma fmt_d_digits (n : N) : all_chars is_digit (fmt_d n) = true.
Proof.
  unfold fmt_d, pretty, pretty_N. case_decide; [done|].
  by apply pretty_N_go_digits.
Qed.

Lemma fmt_d_inj (n m : N) : fmt_d n = fmt_d m → n = m.
Proof. apply (inj pretty). Qed.

(** A name is a prefix without digits followed by digits, and splits into
    the two in one way only. *)
Lemma name_split (p1 p2 d1 d2 : string) :
  all_chars (λ c, negb (is_digit c)) p1 = true →
  all_chars (λ c, negb (is_digit c)) p2 = true →
  all_chars is_digit d1 = true →
  all_chars is_digit d2 = true →
  p1 +:+ d1 = p2 +:+ d2 → p1 = p2 ∧ d1 = d2.
Proof.
  revert p2. induction p1 as [|a p1 IH]; intros [|b p2] H1 H2 H3 H4 Heq;
    rewrite ?append_nil_l, ?append_cons_l in Heq; simpl in *.
  - done.
  - subst d1. simpl in H3.
    apply andb_prop in H2 as [H2 _]. apply andb_prop in H3 as [H3 _].
    rewrite H3 in H2. done.
  - subst d2. simpl in H4.
    apply andb_prop in H1 as [H1 _]. apply andb_prop in H4 as [H4 _].
    rewrite H4 in H1. done.
  - injection Heq as -> Heq.
    apply andb_prop in H1 as [_ H1]. apply andb_prop in H2 as [_ H2].
    destruct (IH p2 H1 H2 H3 H4 Heq) as [-> ->]. done.
Qed.

Lemma name_inj (p1 p2 : string) (n m : N) :
  all_chars (λ c, negb (is_digit c)) p1 = true →
  all_chars (λ c, negb (is_digit c)) p2 = true →
  p1 +:+ fmt_d n = p2 +:+ fmt_d m → p1 = p2 ∧ n = m.
Proof.
  intros H1 H2 Heq.
  destruct (name_split p1 p2 (fmt_d n) (fmt_d m)) as [-> Hd];
    auto using fmt_d_digits, fmt_d_inj.
Qed.

(** ** Relations every step keeps *)

Section Preserved.
Context {St : Type} (R : relation St) `{!PreOrder R}.

Lemma preserves_ret {A} (a : A) : preserves R (mret a : M St A).
Proof. intros s. reflexivity. Qed.

Lemma preserves_throw {A} (e : exn) : preserves R (mthrow e : M St A).
Proof. intros s. reflexivity. Qed.

Lemma preserves_get : preserves R (get : M St St).
Proof. intros s. reflexivity. Qed.

Lemma preserves_bind {A B} (m : M St A) (f : A → M St B) :
  preserves R m → (∀ a, preserves R (f a)) → preserves R (m ≫= f).
Proof.
  intros Hm Hf s. specialize (Hm s).
  unfold state_after, mbind, M_bind in *.
  destruct (m s) as [[a|e] s1]; simpl in *; [|done].
  etrans; [exact Hm|]. apply Hf.
Qed.

Lemma preserves_mapM {A B} (f : A → M St B) (l : list A) :
  (∀ x, preserves R (f x)) → preserves R (mapM f l).
Proof.
  intros Hf. induction l as [|x l IH]; simpl.
  - apply preserves_ret.
  - apply preserves_bind; [done|]. intros y.
    apply preserves_bind; [done|]. intros k. apply preserves_ret.
Qed.

Lemma preserves_for_each {A} (l : list A) (body : A → M St ()) :
  (∀ x, preserves R (body x)) → preserves R (for_each l body).
Proof.
  intros Hf. induction l as [|x l IH]; simpl.
  - apply preserves_ret.
  - apply preserves_bind; [done|]. intros _. done.
Qed.

Lemma preserves_fold_loop {A B} (body : B → A → M St B) (l : list A)
    (acc : B) :
  (∀ b x, preserves R (body b x)) → preserves R (fold_loop body l acc).
Proof.
  intros Hf. revert acc. induction l as [|x l IH]; intros acc; simpl.
  - apply preserves_ret.
  - apply preserves_bind; [done|]. intros b. apply IH.
Qed.

End Preserved.

Create HintDb pygmsh.

(** Walks through the structure of a method: binds, branches and loops. *)
Ltac preserves_step :=
  lazymatch goal with
  | |- preserves _ (mret _) => refine (preserves_ret _ _)
  | |- preserves _ (mthrow _) => refine (preserves_throw _ _)
  | |- preserves _ get => refine (preserves_get _)
  | |- preserves _ (mbind _ _) => refine (preserves_bind _ _ _ _ _); [|intros]
  | |- preserves _ (mapM _ _) => refine (preserves_mapM _ _ _ _); intros
  | |- preserves _ (for_each _ _) =>
      refine (preserves_for_each _ _ _ _); intros
  | |- preserves _ (fold_loop _ _ _) =>
      refine (preserves_fold_loop _ _ _ _ _); intros
  | |- preserves _ (match ?x with _ => _ end) => destruct x
  | |- preserves _ ((match ?x with _ => _ end) _) => destruct x
  | |- preserves _ (let _ := _ in _) => cbv zeta
  | |- preserves _ _ => first [solve [eauto with pygmsh] | progress cbv beta]
  end.

Ltac preserves_tac := repeat preserves_step.

(** ** The built-in session grows *)

Section BuiltinGrows.
Context {num : Type} `{Numeric num} `{Builtin.EntityClasses num}.
Import Builtin.

Local Abbreviation Py := (M State).

Global Instance grows_preorder : PreOrder grows.
Proof.
  split.
  - intros s. split; [done|]. intros c. lia.
  - intros s1 s2 s3 [Hl1 Hc1] [Hl2 Hc2]. split; [by etrans|].
    intros c. specialize (Hc1 c). specialize (Hc2 c). lia.
Qed.

Lemma counter_of_set_counter (c c' : counter) (n : N) (g : Geometry) :
  counter_of c' (set_counter c n g)
  = if decide (c = c') then n else counter_of c' g.
Proof. by destruct c, c'. Qed.

Lemma append_code_grows (stmt : string) : preserves grows (append_code stmt).
Proof.
  intros s. split; simpl.
  - by apply prefix_app_r.
  - intros c. destruct c; simpl; lia.
Qed.

Lemma bump_grows (c : counter) : preserves grows (bump c).
Proof.
  intros s. split; simpl; [by destruct c|]. intros c'.
  rewrite counter_of_set_counter. case_decide; subst; lia.
Qed.

Lemma construct_grows {A} (init : class_ids → A * class_ids) :
  preserves grows (construct init).
Proof.
  intros s. unfold state_after, construct.
  destruct (init (ids s)) as [a w]. split; simpl; [done|]. intros c. lia.
Qed.

Local Hint Resolve append_code_grows bump_grows construct_grows : pygmsh.

Lemma read_grows (c : counter) : preserves grows (read c).
Proof. unfold read. preserves_tac. Qed.

Local Hint Resolve read_grows : pygmsh.

Lemma named_grows (c : counter) (p : string) : preserves grows (named c p).
Proof. unfold named. preserves_tac. Qed.

Local Hint Resolve named_grows : pygmsh.

Lemma fresh_grows (c : counter) (p : string) : preserves grows (fresh c p).
Proof. unfold fresh. preserves_tac. Qed.

Local Hint Resolve fresh_grows : pygmsh.

Lemma new_entity_grows (c : pyclass)
    (init : class_ids → (string * string) * class_ids) :
  preserves grows (new_entity c init).
Proof. unfold new_entity. preserves_tac. Qed.

Local Hint Resolve new_entity_grows : pygmsh.

Lemma Point_grows x lcar : preserves grows (Point x lcar).
Proof. unfold Point. preserves_tac. Qed.

Lemma Line_grows p0 p1 : preserves grows (Line p0 p1).
Proof. unfold Line. preserves_tac. Qed.

Lemma EllipseArc_grows ps : preserves grows (EllipseArc ps).
Proof. unfold EllipseArc. preserves_tac. Qed.

Lemma LineLoop_grows cs : preserves grows (LineLoop cs).
Proof. unfold LineLoop. preserves_tac. Qed.

Lemma PlaneSurface_grows ll holes : preserves grows (PlaneSurface ll holes).
Proof. unfold PlaneSurface. preserves_tac. Qed.

Lemma Circle_grows x0 r lcar R holes ms :
  preserves grows (Circle x0 r lcar R holes ms).
Proof. unfold Circle. preserves_tac. Qed.

Local Hint Resolve Point_grows Line_grows EllipseArc_grows LineLoop_grows
  PlaneSurface_grows Circle_grows : pygmsh.

Lemma add_grows {A} `{HasCode A} (entity : A) : preserves grows (add entity).
Proof. unfold add. preserves_tac. Qed.

Lemma add_ruled_surface_grows {A} `{HasId A} (line_loop : A) :
  preserves grows (add_ruled_surface line_loop).
Proof. unfold add_ruled_surface. preserves_tac. Qed.

Lemma add_compound_surface_grows {A} `{HasId A} (surfaces : list A) :
  preserves grows (add_compound_surface surfaces).
Proof. unfold add_compound_surface. preserves_tac. Qed.

Lemma add_surface_loop_grows {A} `{HasId A} (surfaces : list A) :
  preserves grows (add_surface_loop surfaces).
Proof. unfold add_surface_loop. preserves_tac. Qed.

Lemma add_volume_grows surface_loop : preserves grows (add_volume surface_loop).
Proof. unfold add_volume. preserves_tac. Qed.

Lemma add_compound_volume_grows {A} `{HasId A} (volumes : list A) :
  preserves grows (add_compound_volume volumes).
Proof. unfold add_compound_volume. preserves_tac. Qed.

Lemma _new_physical_group_grows label :
  preserves grows (_new_physical_group label).
Proof. unfold _new_physical_group. preserves_tac. Qed.

Local Hint Resolve add_grows add_ruled_surface_grows
  add_compound_surface_grows add_surface_loop_grows add_volume_grows
  add_compound_volume_grows _new_physical_group_grows : pygmsh.

Lemma add_physical_point_grows point label :
  preserves grows (add_physical_point point label).
Proof. unfold add_physical_point. preserves_tac. Qed.

Lemma add_physical_line_grows line label :
  preserves grows (add_physical_line line label).
Proof. unfold add_physical_line. preserves_tac. Qed.

Lemma add_physical_surface_grows surface label :
  preserves grows (add_physical_surface surface label).
Proof. unfold add_physical_surface. preserves_tac. Qed.

Lemma add_physical_volume_grows volume label :
  preserves grows (add_physical_volume volume label).
Proof. unfold add_physical_volume. preserves_tac. Qed.

Lemma when_grows cond body :
  preserves grows body → preserves grows (when cond body).
Proof. intros. unfold when. by preserves_tac. Qed.

Lemma extrude_grows {A} `{HasId A} (entity : string + A) t r p angle :
  preserves grows (extrude entity t r p angle).
Proof. unfold extrude. preserves_tac. Qed.

Local Hint Resolve add_physical_point_grows add_physical_line_grows
  add_physical_surface_grows add_physical_volume_grows when_grows
  extrude_grows : pygmsh.

Lemma add_boundary_layer_grows {A B} `{HasId A, HasId B}
    (edges_list : option (list A)) faces_list (nodes_list : option (list B))
    anisomax hfar hwall_n hwall_t ratio thickness :
  preserves grows
    (add_boundary_layer edges_list faces_list nodes_list anisomax hfar
       hwall_n hwall_t ratio thickness).
Proof. unfold add_boundary_layer. preserves_tac. Qed.

Lemma add_background_field_grows fields aggregation_type :
  preserves grows (add_background_field fields aggregation_type).
Proof. unfold add_background_field. preserves_tac. Qed.

Lemma add_array_grows entities : preserves grows (add_array entities).
Proof. unfold add_array. preserves_tac. Qed.

Lemma add_comment_grows string : preserves grows (add_comment string).
Proof. unfold add_comment. preserves_tac. Qed.

Lemma add_raw_code_grows string_or_list :
  preserves grows (add_raw_code string_or_list).
Proof. unfold add_raw_code. preserves_tac. Qed.

Local Hint Resolve add_boundary_layer_grows add_background_field_grows
  add_array_grows add_comment_grows add_raw_code_grows : pygmsh.

Lemma add_polygon_loop_grows X lcar :
  preserves grows (add_polygon_loop X lcar).
Proof. unfold add_polygon_loop. preserves_tac. Qed.

Local Hint Resolve add_polygon_loop_grows : pygmsh.

Lemma add_polygon_grows X lcar holes :
  preserves grows (add_polygon X lcar holes).
Proof. unfold add_polygon. preserves_tac. Qed.

Local Hint Resolve add_polygon_grows : pygmsh.

Lemma add_rectangle_grows xmin xmax ymin ymax z lcar holes :
  preserves grows (add_rectangle xmin xmax ymin ymax z lcar holes).
Proof. unfold add_rectangle. preserves_tac. Qed.

Lemma add_ellipsoid_grows x0 radii lcar with_volume holes label :
  preserves grows (add_ellipsoid x0 radii lcar with_volume holes label).
Proof. unfold add_ellipsoid. preserves_tac. Qed.

Local Hint Resolve add_rectangle_grows add_ellipsoid_grows : pygmsh.

Lemma add_ball_grows x0 radius lcar with_volume holes label :
  preserves grows (add_ball x0 radius lcar with_volume holes label).
Proof. unfold add_ball. preserves_tac. Qed.

Lemma add_box_grows x0 x1 y0 y1 z0 z1 lcar with_volume holes label :
  preserves grows (add_box x0 x1 y0 y1 z0 z1 lcar with_volume holes label).
Proof. unfold add_box. preserves_tac. Qed.

Lemma extrude_round_grows {A} `{HasId A} rot_axis point_on_rot_axis angle
    (previous : list A) all_surfaces :
  preserves grows
    (extrude_round rot_axis point_on_rot_axis angle previous all_surfaces).
Proof. unfold extrude_round. preserves_tac. Qed.

Local Hint Resolve add_ball_grows add_box_grows extrude_round_grows : pygmsh.

Lemma _add_torus_extrude_lines_grows irad orad lcar R x0 label :
  preserves grows (_add_torus_extrude_lines irad orad lcar R x0 label).
Proof. unfold _add_torus_extrude_lines. preserves_tac. Qed.

Lemma _add_torus_extrude_circle_grows irad orad lcar R x0 label :
  preserves grows (_add_torus_extrude_circle irad orad lcar R x0 label).
Proof. unfold _add_torus_extrude_circle. preserves_tac. Qed.

Local Hint Resolve _add_torus_extrude_lines_grows
  _add_torus_extrude_circle_grows : pygmsh.

Lemma add_torus_grows irad orad lcar R x0 label variant :
  preserves grows (add_torus irad orad lcar R x0 label variant).
Proof. unfold add_torus. preserves_tac. Qed.

Lemma _add_pipe_by_rectangle_rotation_grows outer_radius inner_radius length
    R x0 label lcar :
  preserves grows
    (_add_pipe_by_rectangle_rotation outer_radius inner_radius length
       R x0 label lcar).
Proof. unfold _add_pipe_by_rectangle_rotation. preserves_tac. Qed.

Lemma _add_pipe_by_circle_extrusion_grows outer_radius inner_radius length
    R x0 label lcar :
  preserves grows
    (_add_pipe_by_circle_extrusion outer_radius inner_radius length
       R x0 label lcar).
Proof. unfold _add_pipe_by_circle_extrusion. preserves_tac. Qed.

Local Hint Resolve add_torus_grows _add_pipe_by_rectangle_rotation_grows
  _add_pipe_by_circle_extrusion_grows : pygmsh.

Lemma add_pipe_grows outer_radius inner_radius length R x0 label lcar
    variant :
  preserves grows
    (add_pipe outer_radius inner_radius length R x0 label lcar variant).
Proof. unfold add_pipe. preserves_tac. Qed.

Local Hint Resolve add_pipe_grows : pygmsh.

Lemma exec_grows (c : call) : preserves grows (exec c).
Proof. destruct c; simpl; preserves_tac. Qed.

Lemma run_grows (script : list call) (s : State) : grows s (run script s).
Proof.
  revert s. induction script as [|c script IH]; intros s; simpl.
  - reflexivity.
  - etrans; [apply (exec_grows c)|]. apply IH.
Qed.

End BuiltinGrows.

(** ** The OpenCASCADE session grows *)

Section OpenCascadeGrows.
Context {num : Type} `{Numeric num} `{OpenCascade.EntityClasses num}.
Import OpenCascade.

Local Abbreviation Py := (M State).

Global Instance occ_grows_preorder : PreOrder grows.
Proof.
  split.
  - intros s. split; [done|]. intros c. lia.
  - intros s1 s2 s3 [Hl1 Hc1] [Hl2 Hc2]. split; [by etrans|].
    intros c. specialize (Hc1 c). specialize (Hc2 c). lia.
Qed.

Lemma occ_append_code_grows (stmt : string) :
  preserves grows (append_code stmt).
Proof.
  intros s. split; simpl.
  - by apply prefix_app_r.
  - intros c. destruct c; simpl; lia.
Qed.

Lemma occ_bump_grows (c : counter) : preserves grows (bump c).
Proof.
  intros s. split; simpl.
  - by destruct c.
  - intros c'. destruct c, c'; simpl; lia.
Qed.

Lemma occ_construct_grows init : preserves grows (construct init).
Proof.
  intros s. unfold state_after, construct.
  destruct (init (ids s)) as [a w]. split; simpl; [done|]. intros c. lia.
Qed.

Local Hint Resolve occ_append_code_grows occ_bump_grows
  occ_construct_grows : pygmsh.

Lemma occ_named_grows c p : preserves grows (named c p).
Proof. unfold named. preserves_tac. Qed.

Lemma occ_assert_grows cond msg : preserves grows (assert cond msg).
Proof. unfold assert. preserves_tac. Qed.

Lemma add_shape_grows init args : preserves grows (add_shape init args).
Proof. unfold add_shape. preserves_tac. Qed.

Local Hint Resolve occ_named_grows occ_assert_grows add_shape_grows : pygmsh.

Lemma _boolean_operation_grows operation input_entities tool_entities delete :
  preserves grows
    (_boolean_operation operation input_entities tool_entities delete).
Proof. unfold _boolean_operation. preserves_tac. Qed.

Local Hint Resolve _boolean_operation_grows : pygmsh.

Lemma boolean_intersection_grows entities delete :
  preserves grows (boolean_intersection entities delete).
Proof. unfold boolean_intersection. preserves_tac. Qed.

Lemma boolean_union_grows entities delete :
  preserves grows (boolean_union entities delete).
Proof. unfold boolean_union. preserves_tac. Qed.

Lemma boolean_difference_grows input_entities tool_entities delete :
  preserves grows (boolean_difference input_entities tool_entities delete).
Proof. unfold boolean_difference. preserves_tac. Qed.

Lemma boolean_fragments_grows input_entities tool_entities delete :
  preserves grows (boolean_fragments input_entities tool_entities delete).
Proof. unfold boolean_fragments. preserves_tac. Qed.

Lemma occ_extrude_grows input_entity translation_axis :
  preserves grows (extrude input_entity translation_axis).
Proof. unfold extrude. preserves_tac. Qed.

Local Hint Resolve boolean_intersection_grows boolean_union_grows
  boolean_difference_grows boolean_fragments_grows occ_extrude_grows : pygmsh.

Lemma occ_exec_grows (c : call) : preserves grows (exec c).
Proof.
  destruct c; simpl; unfold add_rectangle, add_disk, add_ball, add_box,
    add_cylinder, add_torus; preserves_tac.
Qed.

Lemma occ_run_grows (script : list call) (s : State) :
  grows s (run script s).
Proof.
  revert s. induction script as [|c script IH]; intros s; simpl.
  - reflexivity.
  - etrans; [apply (occ_exec_grows c)|]. apply IH.
Qed.

End OpenCascadeGrows.

(** ** Running a computation *)

Lemma bind_returns {St A B} (m : M St A) (f : A → M St B) (s s' : St) (a : A) :
  m s = (Returns a, s') → (m ≫= f) s = f a s'.
Proof. intros Hm. unfold mbind, M_bind. by rewrite Hm. Qed.

Lemma bind_raises {St A B} (m : M St A) (f : A → M St B) (s s' : St) e :
  m s = (Raises e, s') → (m ≫= f) s = (Raises e, s').
Proof. intros Hm. unfold mbind, M_bind. by rewrite Hm. Qed.

Lemma bind_assoc {St A B C} (m : M St A) (f : A → M St B) (g : B → M St C)
    (s : St) :
  ((m ≫= f) ≫= g) s = (m ≫= (λ a, f a ≫= g)) s.
Proof. unfold mbind, M_bind. by destruct (m s) as [[a|e] s1]. Qed.

Lemma bind_ret {St A B} (a : A) (f : A → M St B) (s : St) :
  (mret a ≫= f) s = f a s.
Proof. done. Qed.

Lemma mapM_cons {St A B} (f : A → M St B) (x : A) (l : list A) :
  mapM f (x :: l) = (y ← f x; k ← mapM f l; mret (y :: k)).
Proof. done. Qed.

Lemma mapM_nil {St A B} (f : A → M St B) : mapM f [] = mret [].
Proof. done. Qed.

Lemma ret_inv {St A} (a : A) (s s' : St) (r : outcome A) :
  (mret a : M St A) s = (r, s') → r = Returns a ∧ s' = s.
Proof. by intros [= <- <-]. Qed.

(** ** Boolean operations *)

Section Boolean.
Context {num : Type} `{Numeric num} `{OpenCascade.EntityClasses num}.
Import OpenCascade.

Local Abbreviation Py := (M State).

Lemma isinstance_spec (e : Entity) (d : dim_type) :
  isinstance e d = true ↔ base e = Some d.
Proof. unfold isinstance. by rewrite bool_decide_eq_true. Qed.

Lemma all_of_spec (d : dim_type) (es : list Entity) :
  all_of d es = true ↔ Forall (λ e, base e = Some d) es.
Proof.
  unfold all_of. rewrite forallb_forall, Forall_forall.
  split; intros Hes e He; apply isinstance_spec, Hes;
    by apply list_elem_of_In.
Qed.

Lemma uniform_spec (es : list Entity) :
  uniform es = true ↔ ∃ d, all_of d es = true.
Proof.
  unfold uniform. rewrite existsb_exists. split.
  - intros (d & _ & Hd). by exists d.
  - intros [d Hd]. exists d. split; [|done]. destruct d; simpl; auto.
Qed.

(** The dimension test on the first input entity *)
Lemma find_dim_type (e : Entity) :
  snd <$> list_find (isinstance e) [LineBase; SurfaceBase; VolumeBase]
  = base e.
Proof.
  unfold isinstance. destruct (base e) as [[]|]; by simpl.
Qed.

(** The loop of assertions over the remaining entities leaves the state
    alone; it passes when all of them are instances of [d]. *)
Lemma check_all_passes (d : dim_type) (es : list Entity) (s : State) :
  all_of d es = true →
  for_each es (λ e, assert (isinstance e d)
    ("Incompatible input type '" +:+ type_name e
       +:+ "' for Boolean operation.")) s = (Returns (), s).
Proof.
  induction es as [|e es IH]; [done|].
  change (all_of d (e :: es)) with (isinstance e d && all_of d es).
  intros [He Hes]%andb_prop. cbn [for_each].
  rewrite (bind_returns _ _ s s ()); [by apply IH|].
  unfold assert. by rewrite He.
Qed.

Lemma check_all_fails (d : dim_type) (es : list Entity) (s : State) :
  all_of d es = false →
  ∃ msg, for_each es (λ e, assert (isinstance e d)
    ("Incompatible input type '" +:+ type_name e
       +:+ "' for Boolean operation.")) s = (Raises (AssertionError msg), s).
Proof.
  induction es as [|e es IH]; [done|].
  change (all_of d (e :: es)) with (isinstance e d && all_of d es).
  cbn [for_each]. destruct (isinstance e d) eqn:He.
  - intros Hes. destruct (IH Hes) as [msg Hmsg]. exists msg.
    by rewrite (bind_returns _ _ s s ()).
  - intros _. eexists. by apply bind_raises.
Qed.

Lemma _boolean_operation_returns operation input_entities tool_entities
    delete (d : dim_type) (s : State) :
  input_entities ≠ [] →
  all_of d (input_entities ++ tool_entities) = true →
  let name := "bo" +:+ fmt_d (_BOOLEAN_ID (self s) + 1) in
  _boolean_operation operation input_entities tool_entities delete s
  = (Returns (new_base d name (Some true)),
     state_after
       (append_code
          (boolean_statement name operation d input_entities tool_entities
             delete))
       (state_after (bump BOOLEAN_ID) s)).
Proof.
  intros Hne Hall name. destruct input_entities as [|first rest]; [done|].
  unfold _boolean_operation.
  rewrite (bind_returns _ _ s (state_after (bump BOOLEAN_ID) s) ()) by done.
  rewrite (bind_returns _ _ _ (state_after (bump BOOLEAN_ID) s) first)
    by done.
  pose proof (find_dim_type first) as Hfind.
  change (all_of d ((first :: rest) ++ tool_entities))
    with (isinstance first d && all_of d (rest ++ tool_entities)) in Hall.
  apply andb_prop in Hall as [Hfirst Hrest].
  apply isinstance_spec in Hfirst. rewrite Hfirst in Hfind.
  destruct (list_find _ _) as [[i d']|]; [|done].
  injection Hfind as ->.
  rewrite (bind_returns _ _ _ (state_after (bump BOOLEAN_ID) s) ())
    by by apply check_all_passes.
  done.
Qed.

Lemma _boolean_operation_raises operation input_entities tool_entities
    delete (s : State) :
  input_entities ≠ [] →
  uniform (input_entities ++ tool_entities) = false →
  ∃ msg,
    _boolean_operation operation input_entities tool_entities delete s
    = (Raises (AssertionError msg), state_after (bump BOOLEAN_ID) s).
Proof.
  intros Hne Huni. destruct input_entities as [|first rest]; [done|].
  unfold _boolean_operation.
  rewrite (bind_returns _ _ s (state_after (bump BOOLEAN_ID) s) ()) by done.
  rewrite (bind_returns _ _ _ (state_after (bump BOOLEAN_ID) s) first)
    by done.
  pose proof (find_dim_type first) as Hfind.
  destruct (list_find _ _) as [[i d]|]; [|by eexists].
  simpl in Hfind. symmetry in Hfind.
  assert (all_of d (rest ++ tool_entities) = false) as Hrest.
  { destruct (all_of d (rest ++ tool_entities)) eqn:Hall; [|done].
    rewrite <- Huni. symmetry. apply uniform_spec. exists d.
    change (all_of d ((first :: rest) ++ tool_entities))
      with (isinstance first d && all_of d (rest ++ tool_entities)).
    apply andb_true_intro. split; [by apply isinstance_spec|done]. }
  destruct (check_all_fails d _ (state_after (bump BOOLEAN_ID) s) Hrest)
    as [msg Hmsg].
  exists msg. by apply bind_raises.
Qed.

End Boolean.

(** ** Allocating names *)

Lemma append_inj_l (p a b : string) : p +:+ a = p +:+ b → a = b.
Proof.
  induction p as [|c p IH]; [done|].
  rewrite !append_cons_l. intros [= Heq]. by apply IH.
Qed.

Section Allocations.
Context {St Script : Type} (run : Script → St → St) (ctr : St → N).
Context (p : string) (alloc : M St string).
Hypothesis run_mono : ∀ script s, ctr s ≤ ctr (run script s).
Hypothesis alloc_next :
  ∀ s, ∃ s', alloc s = (Returns (p +:+ fmt_d (ctr s + 1)), s') ∧
             ctr s' = ctr s + 1.

Lemma allocations_numbers (scripts : list Script) (s : St) :
  ∃ ns : list N,
    allocations run alloc scripts s = (λ n, p +:+ fmt_d n) <$> ns ∧
    length ns = length scripts ∧
    Forall (λ n, ctr s < n) ns ∧
    StronglySorted N.lt ns.
Proof.
  revert s. induction scripts as [|script rest IH]; intros s.
  - exists []. repeat split; constructor.
  - pose proof (run_mono script s) as Hrun.
    destruct (alloc_next (run script s)) as (s' & Halloc & Hctr).
    destruct (IH s') as (ns & Hnames & Hlen & Hgt & Hsorted).
    exists ((ctr (run script s) + 1) :: ns). simpl.
    rewrite Halloc, Hnames, Hlen. split; [done|]. split; [done|].
    split; constructor.
    + lia.
    + eapply Forall_impl; [exact Hgt|]. intros n Hn. simpl in Hn. lia.
    + done.
    + eapply Forall_impl; [exact Hgt|]. intros n Hn. simpl in Hn. lia.
Qed.

Lemma allocations_distinct (scripts : list Script) (s : St) :
  NoDup (allocations run alloc scripts s).
Proof.
  destruct (allocations_numbers scripts s) as (ns & -> & _ & _ & Hsorted).
  apply NoDup_fmap_2.
  - intros n m Heq. by apply fmt_d_inj, (append_inj_l p).
  - clear -Hsorted. induction Hsorted as [|n ns _ IH Hall]; constructor.
    + intros Hin. rewrite Forall_forall in Hall.
      specialize (Hall n Hin). lia.
    + done.
Qed.

End Allocations.

Section AllocatorsOfTheSessions.
Context {num : Type} `{Numeric num}.
Context `{BC : Builtin.EntityClasses num} `{OC : OpenCascade.EntityClasses num}.

Lemma fresh_next (c : Builtin.counter) (p : string) (s : Builtin.State) :
  ∃ s', Builtin.fresh c p s
        = (Returns (p +:+ fmt_d (Builtin.counter_of c (Builtin.self s) + 1)),
           s') ∧
        Builtin.counter_of c (Builtin.self s')
        = Builtin.counter_of c (Builtin.self s) + 1.
Proof. exists (state_after (Builtin.fresh c p) s). by destruct c. Qed.

Lemma occ_fresh_next (c : OpenCascade.counter) (p : string)
    (s : OpenCascade.State) :
  ∃ s', OpenCascade.fresh c p s
        = (Returns
             (p +:+ fmt_d (OpenCascade.counter_of c (OpenCascade.self s) + 1)),
           s') ∧
        OpenCascade.counter_of c (OpenCascade.self s')
        = OpenCascade.counter_of c (OpenCascade.self s) + 1.
Proof. exists (state_after (OpenCascade.fresh c p) s). by destruct c. Qed.

Lemma run_counter_mono (c : Builtin.counter) (script : list Builtin.call)
    (s : Builtin.State) :
  Builtin.counter_of c (Builtin.self s)
  ≤ Builtin.counter_of c (Builtin.self (Builtin.run script s)).
Proof. apply (run_grows script s). Qed.

Lemma occ_run_counter_mono (c : OpenCascade.counter)
    (script : list OpenCascade.call) (s : OpenCascade.State) :
  OpenCascade.counter_of c (OpenCascade.self s)
  ≤ OpenCascade.counter_of c
      (OpenCascade.self (OpenCascade.run script s)).
Proof. apply (occ_run_grows script s). Qed.

(** A physical group without a label is named by the same two lines, with
    no prefix. *)
Lemma _new_physical_group_fresh (s : Builtin.State) :
  Builtin._new_physical_group None s
  = Builtin.fresh Builtin.PHYSICALGROUP_ID "" s.
Proof. done. Qed.

End AllocatorsOfTheSessions.

Lemma prefixes_have_no_digits :
  Forall (λ p, all_chars (λ c, negb (is_digit c)) p = true) name_prefixes.
Proof. repeat constructor. Qed.

(** ** Straight-line builders *)

Section BuiltinRuns.
Context {num : Type} `{Numeric num} `{Builtin.EntityClasses num}.
Import Builtin.

Local Abbreviation Py := (M State).

(** Creating an entity and adding it appends its code and nothing else. *)
Lemma add_new_entity_runs (c : pyclass)
    (init : class_ids → (string * string) * class_ids) (s : State) :
  ∃ e w,
    cls e = c ∧
    (pt ← new_entity c init; add pt) s
    = (Returns e,
       {| self := self (state_after (append_code (code e)) s); ids := w |}).
Proof.
  unfold new_entity, construct, add, mbind, M_bind.
  destruct (init (ids s)) as [[i k] w].
  by exists {| cls := c; id := i; code := k |}, w.
Qed.

Lemma add_new_loop_runs (curves : list Entity) (s : State) :
  ∃ l w,
    (l ← LineLoop curves; add l) s
    = (Returns l,
       {| self := self (state_after (append_code (ll_code l)) s);
          ids := w |}).
Proof.
  unfold LineLoop, construct, add, mbind, M_bind.
  destruct (LineLoop_init curves (ids s)) as [[i k] w].
  by exists {| ll_id := i; ll_code := k; lines := curves |}, w.
Qed.

(** What the naming methods do, as the step of a longer computation *)
Lemma add_ruled_surface_bind {A B} `{HasId A} (line_loop : A)
    (f : Dummy → Py B) (s : State) :
  (add_ruled_surface line_loop ≫= f) s
  = let sname := "surf" +:+ fmt_d (_SURFACE_ID (self s) + 1) in
    f {| dummy_id := sname |}
      (state_after
         (append_code ("Ruled Surface(" +:+ sname +:+ ") = {"
                         +:+ id_of line_loop +:+ "};"))
         (state_after
            (append_code (sname +:+ " = news;"))
            (state_after (bump SURFACE_ID) s))).
Proof. done. Qed.

Lemma add_compound_surface_bind {A B} `{HasId A} (surfaces : list A)
    (f : Dummy → Py B) (s : State) :
  (add_compound_surface surfaces ≫= f) s
  = let name := "surf" +:+ fmt_d (_SURFACE_ID (self s) + 1) in
    f {| dummy_id := name |}
      (state_after
         (append_code ("Compound Surface(" +:+ name +:+ ") = {"
                         +:+ join "," (id_of <$> surfaces) +:+ "};"))
         (state_after
            (append_code (name +:+ " = news;"))
            (state_after (bump SURFACE_ID) s))).
Proof. done. Qed.

Lemma add_surface_loop_bind {A B} `{HasId A} (surfaces : list A)
    (f : string → Py B) (s : State) :
  (add_surface_loop surfaces ≫= f) s
  = let name := "surfloop" +:+ fmt_d (_SURFACELOOP_ID (self s) + 1) in
    f name
      (state_after
         (append_code ("Surface Loop(" +:+ name +:+ ") = {"
                         +:+ join "," (id_of <$> surfaces) +:+ "};"))
         (state_after
            (append_code (name +:+ " = newsl;"))
            (state_after (bump SURFACELOOP_ID) s))).
Proof. done. Qed.

Lemma add_volume_bind {B} (surface_loop : string) (f : string → Py B)
    (s : State) :
  (add_volume surface_loop ≫= f) s
  = let name := "vol" +:+ fmt_d (_VOLUME_ID (self s) + 1) in
    f name
      (state_after
         (append_code ("Volume(" +:+ name +:+ ") = " +:+ surface_loop
                         +:+ ";"))
         (state_after
            (append_code (name +:+ " = newv;"))
            (state_after (bump VOLUME_ID) s))).
Proof. done. Qed.

Lemma add_compound_volume_bind {A B} `{HasId A} (volumes : list A)
    (f : string → Py B) (s : State) :
  (add_compound_volume volumes ≫= f) s
  = let name := "cv" +:+ fmt_d (_VOLUME_ID (self s) + 1) in
    f name
      (state_after
         (append_code ("Compound Volume(" +:+ name +:+ ") = {"
                         +:+ join "," (id_of <$> volumes) +:+ "};"))
         (state_after
            (append_code (name +:+ " = newv;"))
            (state_after (bump VOLUME_ID) s))).
Proof. done. Qed.

Lemma add_array_bind {B} (entities : list string) (f : string → Py B)
    (s : State) :
  (add_array entities ≫= f) s
  = let name := "array" +:+ fmt_d (_ARRAY_ID (self s) + 1) in
    f (name +:+ "[]")
      (state_after
         (append_code (name +:+ "[] = {" +:+ join "," entities +:+ "};"))
         (state_after (bump ARRAY_ID) s)).
Proof. done. Qed.

Lemma add_physical_volume_bind {B} (volume label : string) (f : () → Py B)
    (s : State) :
  (add_physical_volume volume (Some label) ≫= f) s
  = f ()
      (state_after
         (append_code ("Physical Volume(" +:+ (dq +:+ label +:+ dq) +:+ ") = "
                         +:+ volume +:+ ";"))
         (state_after (bump PHYSICALGROUP_ID) s)).
Proof. done. Qed.

Lemma add_comment_bind {B} (string : string) (f : () → Py B) (s : State) :
  (add_comment string ≫= f) s
  = f () (state_after (append_code ("// " +:+ string)) s).
Proof. done. Qed.

Lemma add_new_circle_runs (x0 : vec3 num) (radius lcar : num) (R : mat3 num)
    (holes : option (list LineLoopT)) (make_surface : option bool)
    (s : State) :
  let r := Circle_init x0 radius lcar R holes make_surface (ids s) in
  (c ← Circle x0 radius lcar R holes make_surface; add c) s
  = (Returns r.1,
     {| self := self (state_after (append_code (circle_code r.1)) s);
        ids := r.2 |}).
Proof.
  unfold Circle, construct, add, mbind, M_bind. simpl.
  by destruct (Circle_init _ _ _ _ _ _ _).
Qed.

(** An extrusion about an axis through a point *)
Lemma extrude_rotation_runs (entity : string) (r p : vec3 num)
    (angle : string) (s : State) :
  let name := "ex" +:+ fmt_d (_EXTRUDE_ID (self s) + 1) in
  extrude (inl entity : string + Dummy) None (Some r) (Some p) (VStr angle) s
  = (Returns ({| dummy_id := name +:+ "[0]" |},
              {| dummy_id := name +:+ "[1]" |}),
     extruded 1
       [name +:+ "[] = Extrude{{" +:+ join "," (fmt_vec r) +:+ "}, {"
          +:+ join "," (fmt_vec p) +:+ "}, " +:+ angle +:+ "}{" +:+ entity
          +:+ ";};"] s).
Proof. done. Qed.

Lemma extruded_extruded (n m : N) (out1 out2 : list string) (s : State) :
  extruded m out2 (extruded n out1 s) = extruded (n + m) (out1 ++ out2) s.
Proof.
  unfold extruded. simpl. by rewrite N.add_assoc, app_assoc.
Qed.

(** The inner loop over the curves of [previous]: as many far ends as curves
    come back, and only extrusion statements are appended. *)
Lemma extrude_lines_run {A} `{HasId A} (r p : vec3 num) (angle : string)
    (previous : list A) (s : State) :
  ∃ res out,
    mapM (λ prev,
        extrude (inl ("Line{" +:+ id_of prev +:+ "}") : string + Dummy)
          None (Some r) (Some p) (VStr angle)) previous s
    = (Returns res, extruded (N.of_nat (length previous)) out s) ∧
    length res = length previous ∧
    Forall (λ stmt, is_extrusion stmt = true) out.
Proof.
  revert s. induction previous as [|prev previous IH]; intros s.
  - exists [], []. split; [|done]. rewrite mapM_nil.
    unfold extruded. destruct s as [[] ?]. simpl.
    by rewrite N.add_0_r, app_nil_r.
  - rewrite mapM_cons.
    rewrite (bind_returns _ _ _ _ _ (extrude_rotation_runs _ r p angle s)).
    cbv beta zeta.
    match goal with
    | |- context [mbind _ (mapM _ previous) ?s1] =>
        destruct (IH s1) as (res & out & Hrun & Hlen & Hout)
    end.
    eexists (_ :: res), (_ :: out).
    rewrite (bind_returns _ _ _ _ _ Hrun), extruded_extruded.
    split; [|split].
    + replace (N.of_nat (length (prev :: previous)))
        with (1 + N.of_nat (length previous)) by (simpl; lia).
      done.
    + simpl. by rewrite Hlen.
    + by constructor.
Qed.

Lemma extrude_round_bind {A B} `{HasId A} (r p : vec3 num) (angle : string)
    (previous : list A) (all_surfaces : list Dummy)
    (f : list Dummy * list Dummy → Py B) (s : State) :
  ∃ tops surfs out,
    (extrude_round r p angle previous all_surfaces ≫= f) s
    = f (tops, all_surfaces ++ surfs)
        (extruded (N.of_nat (length previous)) out s) ∧
    length tops = length previous ∧
    Forall (λ stmt, is_extrusion stmt = true) out.
Proof.
  destruct (extrude_lines_run r p angle previous s)
    as (res & out & Hrun & Hlen & Hout).
  exists (fst <$> res), (snd <$> res), out.
  unfold extrude_round. rewrite bind_assoc.
  rewrite (bind_returns _ _ _ _ _ Hrun), bind_ret.
  by rewrite length_fmap.
Qed.

Lemma add_bind {A B} `{HasCode A} (entity : A) (f : A → Py B) (s : State) :
  (add entity ≫= f) s
  = f entity (state_after (append_code (code_of entity)) s).
Proof. done. Qed.

Lemma Circle_bind {B} (x0 : vec3 num) (radius lcar : num) (R : mat3 num)
    (holes : option (list LineLoopT)) (make_surface : option bool)
    (f : CircleT → Py B) (s : State) (c : CircleT) (w : class_ids) :
  Circle_init x0 radius lcar R holes make_surface (ids s) = (c, w) →
  (Circle x0 radius lcar R holes make_surface ≫= f) s
  = f c {| self := self s; ids := w |}.
Proof.
  intros Hc. unfold Circle, construct, mbind, M_bind. by rewrite Hc.
Qed.

Lemma fold_loop_cons {A B} (body : B → A → Py B) (x : A) (l : list A)
    (acc : B) :
  fold_loop body (x :: l) acc = (acc' ← body acc x; fold_loop body l acc').
Proof. done. Qed.

Lemma fold_loop_nil {A B} (body : B → A → Py B) (acc : B) :
  fold_loop body [] acc = mret acc.
Proof. done. Qed.

Lemma add_comment_inv (string : string) (s s' : State) (r : outcome ()) :
  add_comment string s = (r, s') →
  r = Returns () ∧ s' = state_after (append_code ("// " +:+ string)) s.
Proof. by intros [= <- <-]. Qed.

Lemma extrusion_defines_no_volume (stmt : string) :
  is_extrusion stmt = true → defines_volume stmt = false.
Proof.
  destruct stmt as [|a stmt]; [done|].
  unfold is_extrusion, defines_volume. cbn [startswith].
  destruct (Ascii.eqb_spec "e" a) as [<-|]; [done|]. by intros [=].
Qed.

Lemma extrusions_define_no_volume (out : list string) :
  Forall (λ stmt, is_extrusion stmt = true) out →
  Forall (λ stmt, defines_volume stmt = false) out.
Proof.
  intros Hout. eapply Forall_impl; [exact Hout|].
  apply extrusion_defines_no_volume.
Qed.

End BuiltinRuns.

(** Stepping through a builder: the computation is the left side of the
    hypothesis; each step runs its first method and tidies the state. *)
Ltac tidy_state H :=
  cbv beta iota zeta in H;
  cbn [Builtin.self Builtin.ids Builtin._SURFACE_ID Builtin._SURFACELOOP_ID
       Builtin._VOLUME_ID Builtin._ELLIPSE_ID Builtin._EXTRUDE_ID
       Builtin._ARRAY_ID Builtin._FIELD_ID Builtin._PHYSICALGROUP_ID
       Builtin._GMSH_CODE Builtin.counter_of Builtin.set_counter
       Builtin.extruded state_after Builtin.append_code Builtin.bump
       modify snd fst] in H.

Ltac run_entity e w Hc :=
  match goal with
  | Erun : mbind _ (mbind _ (Builtin.new_entity ?c ?init)) ?s = _ |- _ =>
      let E := fresh "E" in
      destruct (add_new_entity_runs c init s) as (e & w & Hc & E);
      rewrite (bind_returns _ _ _ _ _ E) in Erun; clear E;
      tidy_state Erun
  end.

Ltac run_loop l w :=
  match goal with
  | Erun : mbind _ (mbind _ (Builtin.LineLoop ?cs)) ?s = _ |- _ =>
      let E := fresh "E" in
      destruct (add_new_loop_runs cs s) as (l & w & E);
      rewrite (bind_returns _ _ _ _ _ E) in Erun; clear E;
      tidy_state Erun
  end.

Ltac run_method :=
  lazymatch goal with
  | Erun : mbind _ ?m ?s = (_, _) |- _ =>
      lazymatch m with
      | mbind _ _ => rewrite bind_assoc in Erun
      | mret _ => rewrite bind_ret in Erun
      | mapM _ (_ :: _) => rewrite mapM_cons in Erun
      | mapM _ [] => rewrite mapM_nil in Erun
      | Builtin.add_ruled_surface _ =>
          rewrite add_ruled_surface_bind in Erun
      | Builtin.add_compound_surface _ =>
          rewrite add_compound_surface_bind in Erun
      | Builtin.add_surface_loop _ => rewrite add_surface_loop_bind in Erun
      | Builtin.add_volume _ => rewrite add_volume_bind in Erun
      | Builtin.add_compound_volume _ =>
          rewrite add_compound_volume_bind in Erun
      | Builtin.add_array _ => rewrite add_array_bind in Erun
      | Builtin.add_physical_volume _ (Some _) =>
          rewrite add_physical_volume_bind in Erun
      | Builtin.add_comment _ => rewrite add_comment_bind in Erun
      | Builtin.add _ => rewrite add_bind in Erun
      | fold_loop _ (_ :: _) _ => rewrite fold_loop_cons in Erun
      | fold_loop _ [] _ => rewrite fold_loop_nil in Erun
      | Builtin.extrude (inl ?e) None (Some ?r) (Some ?p) (VStr ?a) =>
          rewrite (bind_returns _ _ _ _ _ (extrude_rotation_runs e r p a s))
            in Erun
      end;
      tidy_state Erun
  end.

Ltac run_round tops surfs out Hlen Hout :=
  lazymatch goal with
  | Erun : mbind ?f (Builtin.extrude_round ?r ?p ?a ?prev ?all) ?s = (_, _)
    |- _ =>
      let E := fresh "E" in
      destruct (extrude_round_bind r p a prev all f s)
        as (tops & surfs & out & E & Hlen & Hout);
      rewrite E in Erun; clear E; tidy_state Erun
  end.

Ltac run_circle Hcircle :=
  lazymatch goal with
  | Erun : mbind ?f (Builtin.Circle ?x0 ?r ?l ?R ?h ?ms) ?s = (_, _) |- _ =>
      rewrite (Circle_bind x0 r l R h ms f s _ _ Hcircle) in Erun;
      tidy_state Erun
  end.

(** ** Main results *)

Section Claims.
Context {num : Type} `{Numeric num}.
Context `{BC : Builtin.EntityClasses num} `{OC : OpenCascade.EntityClasses num}.

(** C1, at a new session: the text [get_code] returns for a session on which
    no builder has been called yet does not end in a newline character, for
    the built-in session and for the OpenCASCADE session with any
    characteristic lengths.  The last character is the full stop of the
    header, respectively the semicolon of the last set-up statement. *)
Theorem new_session_code_lacks_final_newline :
  ends_in_newline (Builtin.get_code Builtin.__init__) = false ∧
  ∀ lmin lmax : option num,
    ends_in_newline (OpenCascade.get_code (OpenCascade.__init__ lmin lmax))
    = false.
Proof.
  split.
  - unfold Builtin.get_code, ends_in_newline.
    rewrite (join_last nl Builtin._header _ "."%char); [done..|].
    by do 2 apply last_char_app_r.
  - intros lmin lmax. unfold OpenCascade.get_code, ends_in_newline.
    assert (∀ x y, last_char (x +:+ y +:+ ";") = Some ";"%char) as Hsemi.
    { intros x y. by do 2 apply last_char_app_r. }
    destruct lmin as [x|], lmax as [y|];
      (erewrite (join_last nl _ _ ";"%char); [done|done|]);
      first [apply Hsemi | by do 3 apply last_char_app_r].
Qed.

(** C5: [extrude] on the built-in session with [translation_axis],
    [rotation_axis], [point_on_axis] and [angle] all [None] raises the
    [RuntimeError] and leaves the statement log exactly as it was. *)
Theorem extrude_without_axes_fails {A} `{HasId A} (entity : string + A)
    (s : Builtin.State) :
  result_of (Builtin.extrude entity None None None VNone) s
    = Raises (RuntimeError "Specify at least translation or rotation.") ∧
  Builtin._GMSH_CODE
    (Builtin.self (state_after (Builtin.extrude entity None None None VNone) s))
    = Builtin._GMSH_CODE (Builtin.self s).
Proof. done. Qed.

(** C8: the statement log is append-only.  For every call of a public method
    of either session, in any state and whether the call returns or raises,
    the log before the call is a prefix of the log after it. *)
Theorem statement_log_append_only :
  (∀ (c : Builtin.call) (s : Builtin.State),
     Builtin._GMSH_CODE (Builtin.self s) `prefix_of`
       Builtin._GMSH_CODE (Builtin.self (state_after (Builtin.exec c) s))) ∧
  (∀ (c : OpenCascade.call) (s : OpenCascade.State),
     OpenCascade._GMSH_CODE (OpenCascade.self s) `prefix_of`
       OpenCascade._GMSH_CODE
         (OpenCascade.self (state_after (OpenCascade.exec c) s))).
Proof.
  split; intros c s.
  - apply (exec_grows c s).
  - apply (occ_exec_grows c s).
Qed.

(** C9: [add_ball] with midpoint [x0] and radius [r] is [add_ellipsoid] with
    the radii [r, r, r]: from the same state, with the same remaining
    arguments, both have the same outcome (the same handles) and leave the
    same state (the same statements appended). *)
Theorem add_ball_is_add_ellipsoid (x0 : vec3 num) (r lcar : num)
    (with_volume : bool) (holes : option (list string))
    (label : option string) (s : Builtin.State) :
  Builtin.add_ball x0 r lcar with_volume holes label s
  = Builtin.add_ellipsoid x0 (r, r, r) lcar with_volume holes label s.
Proof. reflexivity. Qed.

(** C2, at a single entity: boolean operations are meant to require at least
    two entities and to fail otherwise before anything is appended.
    [boolean_union] on one entity of a dimensional kind returns instead, and
    so do [boolean_difference] and [boolean_fragments] on one input entity
    and no tool entity; each appends its statement, with an empty tool
    list. *)
Theorem boolean_union_accepts_single_entity (e : OpenCascade.Entity)
    (d : OpenCascade.dim_type) (delete : bool) (s : OpenCascade.State) :
  OpenCascade.base e = Some d →
  let name :=
    "bo" +:+ fmt_d (OpenCascade._BOOLEAN_ID (OpenCascade.self s) + 1) in
  let appends (m : M OpenCascade.State OpenCascade.Entity) (op : string) :=
    result_of m s = Returns (OpenCascade.new_base d name (Some true)) ∧
    OpenCascade._GMSH_CODE (OpenCascade.self (state_after m s))
    = OpenCascade._GMSH_CODE (OpenCascade.self s)
        ++ [OpenCascade.boolean_statement name op d [e] [] delete] in
  appends (OpenCascade.boolean_union [e] delete) "BooleanUnion" ∧
  appends (OpenCascade.boolean_difference [e] [] delete) "BooleanDifference" ∧
  appends (OpenCascade.boolean_fragments [e] [] delete) "BooleanFragments".
Proof.
  intros He name appends.
  assert (OpenCascade.all_of d ([e] ++ []) = true) as Hall.
  { apply all_of_spec. by repeat constructor. }
  repeat split;
    unfold result_of, state_after, OpenCascade.boolean_union,
      OpenCascade.boolean_difference, OpenCascade.boolean_fragments;
    by rewrite (_boolean_operation_returns _ [e] [] delete d s).
Qed.

(** C4, as amended: a call to the boolean-operation dispatcher with at least
    one input entity either raises an [AssertionError] and leaves the log as
    it was, when the input and tool entities do not all share one dimensional
    capability, or else returns a new entity of the shared kind, made with
    [is_list=True], and appends exactly one statement. *)
Theorem boolean_operation_checks_dimensions (operation : string)
    (input_entities tool_entities : list OpenCascade.Entity) (delete : bool)
    (s : OpenCascade.State) :
  input_entities ≠ [] →
  let m :=
    OpenCascade._boolean_operation operation input_entities tool_entities
      delete in
  let log_before := OpenCascade._GMSH_CODE (OpenCascade.self s) in
  let log_after :=
    OpenCascade._GMSH_CODE (OpenCascade.self (state_after m s)) in
  if OpenCascade.uniform (input_entities ++ tool_entities) then
    ∃ d r stmt,
      OpenCascade.all_of d (input_entities ++ tool_entities) = true ∧
      result_of m s = Returns r ∧
      OpenCascade.base r = Some d ∧
      OpenCascade.is_list r = Some true ∧
      log_after = log_before ++ [stmt]
  else
    ∃ msg,
      result_of m s = Raises (AssertionError msg) ∧
      log_after = log_before.
Proof.
  intros Hne m log_before log_after.
  destruct (OpenCascade.uniform _) eqn:Huni.
  - apply uniform_spec in Huni as [d Hd]. exists d.
    unfold log_after, result_of, state_after, m.
    rewrite (_boolean_operation_returns _ _ _ _ d s Hne Hd).
    by eexists _, _.
  - destruct (_boolean_operation_raises operation _ _ delete s Hne Huni)
      as [msg Hmsg].
    exists msg. unfold log_after, result_of, state_after, m.
    rewrite Hmsg. split; [done|]. by destruct s.
Qed.

(** C10: a failed call has used up a sequence number.  When [extrude] on the
    built-in session raises because neither axis is given, and when the
    boolean-operation dispatcher raises because the entities do not share
    one dimensional capability, the counter is one higher after the call and
    the log is unchanged; the next call that succeeds is named with the
    number after the one the failed call took. *)
Theorem failed_call_skips_a_number {A} `{HasId A}
    (entity entity' : string + A) (point_on_axis : option (vec3 num))
    (angle : pyval num) (t : vec3 num) (sb : Builtin.State)
    (operation operation' : string)
    (input_entities tool_entities input_entities' tool_entities' :
       list OpenCascade.Entity)
    (delete delete' : bool) (d : OpenCascade.dim_type)
    (so : OpenCascade.State) :
  input_entities ≠ [] →
  OpenCascade.uniform (input_entities ++ tool_entities) = false →
  input_entities' ≠ [] →
  OpenCascade.all_of d (input_entities' ++ tool_entities') = true →
  let failed_extrude := Builtin.extrude entity None None point_on_axis angle in
  let sb' := state_after failed_extrude sb in
  let n := Builtin._EXTRUDE_ID (Builtin.self sb) in
  let failed_boolean :=
    OpenCascade._boolean_operation operation input_entities tool_entities
      delete in
  let so' := state_after failed_boolean so in
  let k := OpenCascade._BOOLEAN_ID (OpenCascade.self so) in
  (result_of failed_extrude sb
     = Raises (RuntimeError "Specify at least translation or rotation.") ∧
   Builtin._EXTRUDE_ID (Builtin.self sb') = n + 1 ∧
   Builtin._GMSH_CODE (Builtin.self sb') = Builtin._GMSH_CODE (Builtin.self sb) ∧
   result_of (Builtin.extrude entity' (Some t) None None VNone) sb'
     = Returns ({| Builtin.dummy_id := "ex" +:+ fmt_d (n + 2) +:+ "[0]" |},
                {| Builtin.dummy_id := "ex" +:+ fmt_d (n + 2) +:+ "[1]" |})) ∧
  ((∃ msg, result_of failed_boolean so = Raises (AssertionError msg)) ∧
   OpenCascade._BOOLEAN_ID (OpenCascade.self so') = k + 1 ∧
   OpenCascade._GMSH_CODE (OpenCascade.self so')
     = OpenCascade._GMSH_CODE (OpenCascade.self so) ∧
   result_of
     (OpenCascade._boolean_operation operation' input_entities'
        tool_entities' delete') so'
     = Returns (OpenCascade.new_base d ("bo" +:+ fmt_d (k + 2)) (Some true))).
Proof.
  intros Hne Hmixed Hne' Hall. simpl. split.
  - unfold result_of, state_after. simpl.
    replace (Builtin._EXTRUDE_ID (Builtin.self sb) + 1 + 1)
      with (Builtin._EXTRUDE_ID (Builtin.self sb) + 2) by lia.
    done.
  - destruct (_boolean_operation_raises operation _ _ delete so Hne Hmixed)
      as [msg Hmsg].
    unfold result_of, state_after. rewrite Hmsg.
    rewrite (_boolean_operation_returns _ _ _ _ d _ Hne' Hall). simpl.
    replace (OpenCascade._BOOLEAN_ID (OpenCascade.self so) + 1 + 1)
      with (OpenCascade._BOOLEAN_ID (OpenCascade.self so) + 2) by lia.
    split; [by exists msg|]. split; [done|]. split; [by destruct so|done].
Qed.




End Claims.


(** ** The results on concrete sessions *)

(** The sibling of [boolean_union]: [boolean_intersection] does refuse fewer
    than two entities, before touching the session. *)
Lemma boolean_intersection_requires_two {num : Type} `{Numeric num}
    `{OpenCascade.EntityClasses num} (entities : list OpenCascade.Entity)
    (delete : bool) (s : OpenCascade.State) :
  (length entities < 2)%nat →
  OpenCascade.boolean_intersection entities delete s
  = (Raises (AssertionError ""), s).
Proof.
  intros Hlen. unfold OpenCascade.boolean_intersection.
  apply bind_raises. unfold OpenCascade.assert.
  rewrite bool_decide_eq_false_2 by lia. done.
Qed.

(** The text of a session ends in a newline after a torus, whose closing
    comment carries one, and does not after a box. *)
Example code_after_torus_ends_in_newline :
  ends_in_newline
    (Builtin.get_code
       (Builtin.self
          (Builtin.run
             [Builtin.call_add_torus (1 # 2)%Q 1%Q (1 # 10)%Q Sample.identity
                Sample.origin None "extrude_circle"]
             Sample.builtin_session)))
  = true.
Proof. vm_compute. reflexivity. Qed.

Example code_after_box_lacks_newline :
  ends_in_newline
    (Builtin.get_code
       (Builtin.self
          (Builtin.run
             [Builtin.call_add_box 0%Q 1%Q 0%Q 1%Q 0%Q 1%Q (1 # 10)%Q true
                None None]
             Sample.builtin_session)))
  = false.
Proof. vm_compute. reflexivity. Qed.

(** C2 on a new session: the union of the single volume [v1]. *)
Lemma boolean_union_of_one_volume :
  OpenCascade.base (Sample.volume "v1") = Some OpenCascade.VolumeBase ∧
  result_of (OpenCascade.boolean_union [Sample.volume "v1"] true)
    Sample.occ_session
  = Returns (OpenCascade.new_base OpenCascade.VolumeBase "bo1" (Some true)) ∧
  OpenCascade._GMSH_CODE
    (OpenCascade.self
       (state_after (OpenCascade.boolean_union [Sample.volume "v1"] true)
          Sample.occ_session))
  = OpenCascade._GMSH_CODE (OpenCascade.self Sample.occ_session)
      ++ ["bo1[] = BooleanUnion{Volume {v1}; Delete;} {Volume {}; Delete;};"].
Proof.
  split; [reflexivity|].
  exact (proj1 (boolean_union_accepts_single_entity (num:=Q)
    (Sample.volume "v1") OpenCascade.VolumeBase true Sample.occ_session
    eq_refl)).
Defined.


(** C4 as stated fails on an empty input list: the two tool entities are
    volumes, so all entities share one dimensional capability, and yet the
    call raises, an [IndexError]. *)
Lemma boolean_operation_on_empty_input :
  OpenCascade.uniform ([] ++ [Sample.volume "v1"; Sample.volume "v2"])
  = true ∧
  result_of
    (OpenCascade._boolean_operation "BooleanDifference" []
       [Sample.volume "v1"; Sample.volume "v2"] true) Sample.occ_session
  = Raises IndexError.
Proof. split; reflexivity. Qed.

(** C4 as amended, on a new session: a volume with a surface is refused. *)
Lemma boolean_operation_on_mixed_entities :
  [Sample.volume "v1"] ≠ [] ∧
  ∃ msg,
    result_of
      (OpenCascade._boolean_operation "BooleanUnion" [Sample.volume "v1"]
         [Sample.flat "s1"] true) Sample.occ_session
    = Raises (AssertionError msg) ∧
    OpenCascade._GMSH_CODE
      (OpenCascade.self
         (state_after
            (OpenCascade._boolean_operation "BooleanUnion"
               [Sample.volume "v1"] [Sample.flat "s1"] true)
            Sample.occ_session))
    = OpenCascade._GMSH_CODE (OpenCascade.self Sample.occ_session).
Proof.
  assert ([Sample.volume "v1"] ≠ []) as Hne by discriminate.
  split; [exact Hne|].
  exact (boolean_operation_checks_dimensions (num:=Q) "BooleanUnion"
    [Sample.volume "v1"] [Sample.flat "s1"] true Sample.occ_session Hne).
Defined.

(** C10 on new sessions: after the failed calls the next extrusion is [ex2]
    and the next boolean operation is [bo2]. *)
Lemma numbers_skipped_on_new_sessions :
  [Sample.volume "v1"] ≠ [] ∧
  OpenCascade.uniform ([Sample.volume "v1"] ++ [Sample.flat "s1"]) = false ∧
  OpenCascade.all_of OpenCascade.VolumeBase
    ([Sample.volume "v1"] ++ [Sample.volume "v2"]) = true ∧
  result_of
    (Builtin.extrude (inl "Line{l1}" : string + Builtin.Dummy)
       (Some Sample.origin) None None VNone)
    (state_after
       (Builtin.extrude (inl "Line{l1}" : string + Builtin.Dummy)
          None None None VNone) Sample.builtin_session)
  = Returns ({| Builtin.dummy_id := "ex2[0]" |},
             {| Builtin.dummy_id := "ex2[1]" |}) ∧
  result_of
    (OpenCascade._boolean_operation "BooleanUnion" [Sample.volume "v1"]
       [Sample.volume "v2"] true)
    (state_after
       (OpenCascade._boolean_operation "BooleanUnion" [Sample.volume "v1"]
          [Sample.flat "s1"] true) Sample.occ_session)
  = Returns (OpenCascade.new_base OpenCascade.VolumeBase "bo2" (Some true)).
Proof.
  assert ([Sample.volume "v1"] ≠ []) as Hne by discriminate.
  assert (OpenCascade.uniform ([Sample.volume "v1"] ++ [Sample.flat "s1"])
          = false) as Hmixed by reflexivity.
  assert (OpenCascade.all_of OpenCascade.VolumeBase
            ([Sample.volume "v1"] ++ [Sample.volume "v2"]) = true)
    as Hall by reflexivity.
  destruct (failed_call_skips_a_number (num:=Q)
    (inl "Line{l1}" : string + Builtin.Dummy)
    (inl "Line{l1}" : string + Builtin.Dummy) None VNone Sample.origin
    Sample.builtin_session "BooleanUnion" "BooleanUnion"
    [Sample.volume "v1"] [Sample.flat "s1"] [Sample.volume "v1"]
    [Sample.volume "v2"] true true OpenCascade.VolumeBase Sample.occ_session
    Hne Hmixed Hne Hall) as ((_ & _ & _ & Hex) & (_ & _ & _ & Hbo)).
  exact (conj Hne (conj Hmixed (conj Hall (conj Hex Hbo)))).
Defined.

(** * Further properties of the sessions *)

(** ** Strings *)

Lemma startswith_app (p s : string) : startswith (p +:+ s) p = true.
Proof.
  induction p as [|a p IH]; [done|].
  rewrite append_cons_l. cbn [startswith]. by rewrite Ascii.eqb_refl, IH.
Qed.

Lemma join_head (sep x : string) (l : list string) :
  ∃ tail, join sep (x :: l) = x +:+ tail.
Proof.
  destruct l as [|y l].
  - exists "". simpl. induction x as [|a x IH]; [done|].
    rewrite append_cons_l. by rewrite <- IH.
  - by eexists.
Qed.

Lemma append_assoc (a b c : string) : (a +:+ b) +:+ c = a +:+ b +:+ c.
Proof.
  induction a as [|x a IH]; [by rewrite !append_nil_l|].
  by rewrite !append_cons_l, IH.
Qed.

(** ** The built-in session *)

Section BuiltinFurther.
Context {num : Type} `{Numeric num} `{Builtin.EntityClasses num}.
Import Builtin.

Local Abbreviation Py := (M State).

(** X1: [add_torus] with a variant that is neither [extrude_lines] nor
    [extrude_circle] raises [ValueError] naming the variant, and leaves the
    session as it was: no statement, no counter, no entity. *)
Theorem add_torus_illegal_variant (irad orad lcar : num) (R : mat3 num)
    (x0 : vec3 num) (label : option string) (variant : string) (s : State) :
  variant ≠ "extrude_lines" →
  variant ≠ "extrude_circle" →
  add_torus irad orad lcar R x0 label variant s
  = (Raises (ValueError ("Illegal variant '" +:+ variant +:+ "'.")), s).
Proof.
  intros Hlines Hcircle. unfold add_torus.
  by rewrite !decide_False by done.
Qed.

(** X2: [add_pipe] with a variant that is neither [rectangle_rotation] nor
    [circle_extrusion] raises [ValueError] naming the variant, and leaves the
    session as it was. *)
Theorem add_pipe_illegal_variant (outer_radius inner_radius length : num)
    (R : mat3 num) (x0 : vec3 num) (label : option string) (lcar : num)
    (variant : string) (s : State) :
  variant ≠ "rectangle_rotation" →
  variant ≠ "circle_extrusion" →
  add_pipe outer_radius inner_radius length R x0 label lcar variant s
  = (Raises (ValueError ("Illegal variant '" +:+ variant +:+ "'.")), s).
Proof.
  intros Hrect Hcirc. unfold add_pipe.
  by rewrite !decide_False by done.
Qed.

(** X3: [extrude] with a rotation axis but no point on the axis raises
    [TypeError], with or without a translation axis; the log is left as it
    was, and the extrusion counter has moved on by one. *)
Theorem extrude_rotation_without_point {A} `{HasId A} (entity : string + A)
    (translation_axis : option (vec3 num)) (rotation_axis : vec3 num)
    (angle : pyval num) (s : State) :
  let m := extrude entity translation_axis (Some rotation_axis) None angle in
  result_of m s = Raises TypeError ∧
  _GMSH_CODE (self (state_after m s)) = _GMSH_CODE (self s) ∧
  _EXTRUDE_ID (self (state_after m s)) = _EXTRUDE_ID (self s) + 1.
Proof. by destruct translation_axis. Qed.

(** X4: [extrude] with a translation axis, or with a rotation axis and a
    point on it, or with all three, returns the handles [ex<n>[0]] and
    [ex<n>[1]] for the counter value [n] it has just reached, appends exactly
    one statement, which assigns the extrusion to [ex<n>[]], and changes no
    other counter. *)
Theorem extrude_appends_one_statement {A} `{HasId A} (entity : string + A)
    (translation_axis rotation_axis point_on_axis : option (vec3 num))
    (angle : pyval num) (s : State) :
  is_Some translation_axis ∨ is_Some rotation_axis →
  (is_Some rotation_axis → is_Some point_on_axis) →
  let m :=
    extrude entity translation_axis rotation_axis point_on_axis angle in
  let name := "ex" +:+ fmt_d (_EXTRUDE_ID (self s) + 1) in
  result_of m s
  = Returns ({| dummy_id := name +:+ "[0]" |},
             {| dummy_id := name +:+ "[1]" |}) ∧
  (∃ body,
     _GMSH_CODE (self (state_after m s))
     = _GMSH_CODE (self s) ++ [name +:+ "[] = Extrude{" +:+ body]) ∧
  ∀ c, counter_of c (self (state_after m s))
       = counter_of c (self s) + (if decide (c = EXTRUDE_ID) then 1 else 0).
Proof.
  intros Hgiven Hpoint m name.
  assert (∀ g c, counter_of c (set_counter EXTRUDE_ID (_EXTRUDE_ID g + 1) g)
    = counter_of c g + (if decide (c = EXTRUDE_ID) then 1 else 0)) as Hc.
  { intros g c. destruct c; simpl; lia. }
  destruct translation_axis as [t|], rotation_axis as [r|];
    try (destruct Hgiven as [[? [=]]|[? [=]]]; fail).
  - destruct point_on_axis as [p|]; [|by destruct Hpoint as [? [=]]].
    split; [done|]. split; [by eexists|]. intros c. apply Hc.
  - split; [done|]. split; [by eexists|]. intros c. apply Hc.
  - destruct point_on_axis as [p|]; [|by destruct Hpoint as [? [=]]].
    split; [done|]. split; [by eexists|]. intros c. apply Hc.
Qed.

Lemma logged_nil (s : State) : logged [] (ids s) s = s.
Proof. destruct s as [[] w]. unfold logged. simpl. by rewrite app_nil_r. Qed.

Lemma logged_logged (a b : list string) (w w' : class_ids) (s : State) :
  logged b w' (logged a w s) = logged (a ++ b) w' s.
Proof. unfold logged. simpl. by rewrite app_assoc. Qed.

Lemma append_code_logged (stmt : string) (s : State) :
  append_code stmt s = (Returns (), logged [stmt] (ids s) s).
Proof. done. Qed.

Lemma for_each_append_code (l : list string) (s : State) :
  for_each l append_code s = (Returns (), logged l (ids s) s).
Proof.
  revert s. induction l as [|x l IH]; intros s.
  - by rewrite logged_nil.
  - change (for_each (x :: l) append_code)
      with (append_code x ≫= λ _, for_each l append_code).
    rewrite (bind_returns _ _ _ _ _ (append_code_logged x s)).
    rewrite IH. by rewrite logged_logged.
Qed.

(** X5: [add_raw_code] appends a string as one statement and a list of
    strings as that many statements, in the order given; it returns, and it
    moves no counter and constructs no entity. *)
Theorem add_raw_code_appends (string_or_list : string + list string)
    (s : State) :
  add_raw_code string_or_list s
  = (Returns (),
     logged
       match string_or_list with inl stmt => [stmt] | inr l => l end
       (ids s) s).
Proof.
  destruct string_or_list as [stmt|l]; [done|]. apply for_each_append_code.
Qed.

(** X6: the text of a session always opens with the header comment,
    whatever calls were made on it, and whether they returned or raised. *)
Theorem code_opens_with_header (script : list call) (w : class_ids) :
  startswith (get_code (self (run script (start w)))) _header = true.
Proof.
  destruct (run_grows script (start w)) as [[rest Hlog] _].
  unfold get_code. rewrite Hlog.
  change (_GMSH_CODE (self (start w)) ++ rest) with (_header :: rest).
  destruct (join_head nl _header rest) as [tail ->].
  apply startswith_app.
Qed.

(** X7: a labelled physical group uses up a number.  After a group with a
    label, the next group without one is numbered two past the counter's
    value before the two calls. *)
Theorem labelled_group_uses_a_number (e1 e2 l : string) (s : State) :
  let m := add_physical_surface e1 (Some l);; add_physical_volume e2 None in
  _GMSH_CODE (self (state_after m s))
  = _GMSH_CODE (self s)
      ++ ["Physical Surface(" +:+ (dq +:+ l +:+ dq) +:+ ") = " +:+ e1
            +:+ ";";
          "Physical Volume(" +:+ fmt_d (_PHYSICALGROUP_ID (self s) + 2)
            +:+ ") = " +:+ e2 +:+ ";"].
Proof.
  simpl. rewrite <- app_assoc. simpl.
  by replace (_PHYSICALGROUP_ID (self s) + 1 + 1)
    with (_PHYSICALGROUP_ID (self s) + 2) by lia.
Qed.

(** Creating the entities of a list one after the other and adding each
    appends their codes in order. *)
Lemma mapM_entities_run {X} (c : pyclass) (f : X → Py Entity) (l : list X)
    (s : State) :
  (∀ x s, ∃ e w, cls e = c ∧ f x s = (Returns e, logged [code e] w s)) →
  ∃ es w,
    mapM f l s = (Returns es, logged (code <$> es) w s) ∧
    length es = length l ∧ Forall (λ e, cls e = c) es.
Proof.
  intros Hf. revert s. induction l as [|x l IH]; intros s.
  - exists [], (ids s). by rewrite logged_nil.
  - destruct (Hf x s) as (e & w & Hc & He).
    destruct (IH (logged [code e] w s)) as (es & w' & Hes & Hlen & Hcls).
    exists (e :: es), w'. rewrite mapM_cons.
    rewrite (bind_returns _ _ _ _ _ He), (bind_returns _ _ _ _ _ Hes).
    rewrite logged_logged. split; [done|]. split; [simpl; congruence|].
    by constructor.
Qed.

Lemma add_new_entity_logged (c : pyclass)
    (init : class_ids → (string * string) * class_ids) (s : State) :
  ∃ e w,
    cls e = c ∧
    (pt ← new_entity c init; add pt) s = (Returns e, logged [code e] w s).
Proof. apply add_new_entity_runs. Qed.

(** The points of a polygon, the lines between them and the closing line,
    and their loop *)
Lemma add_polygon_loop_runs (X : list (vec3 num)) (lcar : num) (s : State) :
  X ≠ [] →
  ∃ (p : list Entity) (ll : LineLoopT) (w : class_ids),
    add_polygon_loop X lcar s
    = (Returns ll,
       logged ((code <$> p) ++ (code <$> lines ll) ++ [ll_code ll]) w s) ∧
    length p = length X ∧ Forall (λ e, cls e = cPoint) p ∧
    length (lines ll) = length X ∧ Forall (λ e, cls e = cLine) (lines ll).
Proof.
  intros HX. unfold add_polygon_loop.
  destruct (mapM_entities_run cPoint (λ x, pt ← Point x lcar; add pt) X s)
    as (p & w1 & Hp & Hlenp & Hclsp).
  { intros x s1. apply add_new_entity_logged. }
  rewrite (bind_returns _ _ _ _ _ Hp).
  destruct (mapM_entities_run cLine (λ '(a, b), l ← Line a b; add l)
              (zip p (drop 1 p)) (logged (code <$> p) w1 s))
    as (e & w2 & He & Hlene & Hclse).
  { intros [a b] s1. apply add_new_entity_logged. }
  rewrite (bind_returns _ _ _ _ _ He), logged_logged.
  assert (∃ p_first p_last, head p = Some p_first ∧ last p = Some p_last)
    as (p_first & p_last & -> & Hlast).
  { destruct p as [|a p']; [by destruct X|]. exists a.
    destruct (last (a :: p')) eqn:E; [by eexists|].
    by apply last_None in E. }
  rewrite Hlast.
  unfold Line, LineLoop, new_entity, construct, add, mbind, M_bind. simpl.
  destruct (Line_init p_last p_first w2) as [[i k] w3].
  destruct (LineLoop_init (e ++ [{| cls := cLine; id := i; code := k |}]) w3)
    as [[j c] w4] eqn:Eloop. simpl.
  exists p, {| ll_id := j; ll_code := c;
               lines := e ++ [{| cls := cLine; id := i; code := k |}] |}, w4.
  simpl. split; [|split; [done|split; [done|split]]].
  - unfold logged. simpl. rewrite Eloop. simpl. rewrite fmap_app. simpl.
    by rewrite <- !app_assoc.
  - rewrite length_app, Hlene, length_zip, length_drop, <- Hlenp.
    destruct p; [done|]. cbn [length]. lia.
  - apply Forall_app. split; [done|]. by constructor.
Qed.

Lemma add_polygon_runs (X : list (vec3 num)) (lcar : num)
    (holes : option (list LineLoopT)) (s : State) :
  X ≠ [] →
  ∃ (p : list Entity) (ll : LineLoopT) (surf : Entity) (w : class_ids),
    add_polygon X lcar holes s
    = (Returns surf,
       logged ((code <$> p) ++ (code <$> lines ll)
                 ++ [ll_code ll; code surf]) w s) ∧
    length p = length X ∧ Forall (λ e, cls e = cPoint) p ∧
    length (lines ll) = length X ∧ Forall (λ e, cls e = cLine) (lines ll) ∧
    cls surf = cPlaneSurface.
Proof.
  intros HX. unfold add_polygon.
  destruct (add_polygon_loop_runs X lcar s HX)
    as (p & ll & w & Hrun & Hlenp & Hclsp & Hlene & Hclse).
  rewrite (bind_returns _ _ _ _ _ Hrun).
  match goal with
  | |- context [(s0 ← PlaneSurface ll holes; add s0) ?s1] =>
      destruct (add_new_entity_logged cPlaneSurface
                  (PlaneSurface_init ll holes) s1) as (surf & w' & Hsurf & E)
  end.
  exists p, ll, surf, w'. unfold PlaneSurface. rewrite E, logged_logged.
  by rewrite <- !app_assoc.
Qed.




(** X11: a polygon without corners cannot be closed: [add_polygon_loop] and
    [add_polygon] on the empty list raise [IndexError] where the last point
    is read, and leave the session as it was. *)
Theorem add_polygon_without_corners (lcar : num)
    (holes : option (list LineLoopT)) (s : State) :
  add_polygon_loop [] lcar s = (Raises IndexError, s) ∧
  add_polygon [] lcar holes s = (Raises IndexError, s).
Proof. done. Qed.


(** X13: [add_pipe] with [circle_extrusion] adds the inner circle, without
    a surface, then the outer circle with the loop of the inner one as its
    hole, and extrudes the surface of the outer circle along the rotated
    axis in one translation.  It returns the second handle of that
    extrusion, [ex<n>[1]]; a label adds one physical volume. *)
Theorem add_pipe_by_circle_extrusion_statements (outer_radius inner_radius
    length : num) (R : mat3 num) (x0 : vec3 num) (label : option string)
    (lcar : num) (s : State) :
  let m :=
    add_pipe outer_radius inner_radius length R x0 label lcar
      "circle_extrusion" in
  let inner :=
    Circle_init x0 inner_radius lcar (dot_mm R Rc) None (Some false)
      (ids s) in
  let outer :=
    Circle_init x0 outer_radius lcar (dot_mm R Rc)
      (Some [line_loop inner.1]) None inner.2 in
  let name := "ex" +:+ fmt_d (_EXTRUDE_ID (self s) + 1) in
  let vol := {| dummy_id := name +:+ "[1]" |} in
  result_of m s = Returns (Some vol) ∧
  _GMSH_CODE (self (state_after m s))
  = _GMSH_CODE (self s)
      ++ [circle_code inner.1; circle_code outer.1;
          name +:+ "[] = Extrude{"
            +:+ join "," (fmt_vec (dot_mv R (length, zero, zero)))
            +:+ "}{" +:+ ("Surface{" +:+ id (plane_surface outer.1) +:+ "}")
            +:+ ";};"]
      ++ (if label_given label
          then ["Physical Volume(" +:+ (dq +:+ default "" label +:+ dq)
                  +:+ ") = " +:+ str_Dummy vol +:+ ";"]
          else []).
Proof.
  intros m inner outer name vol. subst inner outer.
  destruct (Circle_init x0 inner_radius _ _ _ _ _) as [c_inner w1] eqn:E1.
  cbn [fst snd].
  destruct (Circle_init x0 outer_radius _ _ _ _ _) as [circ w2] eqn:E2.
  cbn [fst snd].
  unfold result_of, state_after. destruct (m s) as [r s'] eqn:Erun.
  unfold m, add_pipe in Erun.
  rewrite decide_False, decide_True in Erun by done.
  unfold _add_pipe_by_circle_extrusion in Erun.
  repeat run_method. run_circle E1. repeat run_method.
  run_circle E2. repeat run_method.
  rewrite <- Erun. clear Erun.
  by destruct label as [[|a l]|]; simpl; rewrite <- ?app_assoc.
Qed.

(** X14: [add_torus] with [extrude_circle] turns the surface of the circle
    about the axis in three extrusions of a third of a turn, each one
    starting from the top [ex<k>[0]] the one before it returned, and joins
    the three volumes [ex<k>[1]] they swept into the compound volume. *)
Theorem add_torus_extrude_circle_statements (irad orad lcar : num)
    (R : mat3 num) (x0 : vec3 num) (label : option string) (s : State) :
  let m := add_torus irad orad lcar R x0 label "extrude_circle" in
  let c :=
    (Circle_init (vadd x0 (dot_mv R (zero, orad, zero))) irad lcar
       (dot_mm R Rc) None None (ids s)).1 in
  let ex k := "ex" +:+ fmt_d (_EXTRUDE_ID (self s) + k) in
  let cv := "cv" +:+ fmt_d (_VOLUME_ID (self s) + 1) in
  let turn k surface :=
    ex k +:+ "[] = Extrude{{"
      +:+ join "," (fmt_vec (dot_mv R (zero, zero, one))) +:+ "}, {"
      +:+ join "," (fmt_vec (vadd (dot_mv R (zero, zero, zero)) x0))
      +:+ "}, " +:+ "2*Pi/3" +:+ "}{" +:+ ("Surface{" +:+ surface +:+ "}")
      +:+ ";};" in
  _EXTRUDE_ID (self (state_after m s)) = _EXTRUDE_ID (self s) + 3 ∧
  ∃ after,
    _GMSH_CODE (self (state_after m s))
    = _GMSH_CODE (self s)
        ++ ["// " +:+ replicate_char 76 "-"; "// Torus"; circle_code c;
            turn 1 (id (plane_surface c));
            turn 2 (ex 1 +:+ "[0]");
            turn 3 (ex 2 +:+ "[0]");
            cv +:+ " = newv;";
            "Compound Volume(" +:+ cv +:+ ") = {"
              +:+ join "," [ex 1 +:+ "[1]"; ex 2 +:+ "[1]"; ex 3 +:+ "[1]"]
              +:+ "};"]
        ++ after.
Proof.
  intros m c ex cv turn. unfold state_after.
  destruct (m s) as [r s'] eqn:Erun.
  destruct (Circle_init _ _ _ _ _ _ _) as [c' w] eqn:Hcircle.
  simpl in c. subst c.
  unfold m, add_torus in Erun.
  rewrite decide_False, decide_True in Erun by done.
  unfold _add_torus_extrude_circle in Erun.
  do 2 run_method.
  run_circle Hcircle.
  repeat run_method.
  change (fmt_d 3) with "3" in Erun.
  replace (_EXTRUDE_ID (self s) + 1 + 1) with (_EXTRUDE_ID (self s) + 2)
    in Erun by lia.
  replace (_EXTRUDE_ID (self s) + 2 + 1) with (_EXTRUDE_ID (self s) + 3)
    in Erun by lia.
  subst ex cv turn.
  destruct label as [[|a l]|]; unfold when in Erun;
    cbn [label_given] in Erun; repeat run_method;
    apply add_comment_inv in Erun as [-> ->];
    cbn [self _GMSH_CODE _EXTRUDE_ID state_after append_code modify snd];
    (split; [done|]); eexists;
    repeat (rewrite <- app_assoc || rewrite <- app_comm_cons);
    reflexivity.
Qed.

Lemma fresh_bind {B} (c : counter) (prefix : string) (f : string → Py B)
    (s : State) :
  (fresh c prefix ≫= f) s
  = f (prefix +:+ fmt_d (counter_of c (self s) + 1))
      (state_after (bump c) s).
Proof.
  unfold fresh, named, read, bump, get, modify, state_after, mbind, M_bind.
  simpl. by rewrite counter_of_set_counter, decide_True.
Qed.

Lemma append_code_bind {B} (stmt : string) (f : () → Py B)
    (out : list string) (w : class_ids) (s : State) :
  (append_code stmt ≫= f) (logged out w s)
  = f () (logged (out ++ [stmt]) w s).
Proof. by rewrite <- (logged_logged out [stmt] w w s). Qed.

Lemma when_append_code_bind {B} (cond : bool) (stmt : string)
    (f : () → Py B) (out : list string) (w : class_ids) (s : State) :
  (when cond (append_code stmt) ≫= f) (logged out w s)
  = f () (logged (out ++ if cond then [stmt] else []) w s).
Proof.
  destruct cond; [apply append_code_bind|]. simpl. by rewrite app_nil_r.
Qed.

(** The statements of a boundary layer, as a list *)
Lemma add_boundary_layer_runs {A B} `{HasId A, HasId B}
    (edges_list : option (list A)) (faces_list : option (list string))
    (nodes_list : option (list B))
    (anisomax hfar hwall_n hwall_t ratio thickness : option num)
    (s : State) :
  let name := "field" +:+ fmt_d (_FIELD_ID (self s) + 1) in
  let list_of {X} (key : string) (l : option (list X)) (ids : list string) :=
    if bool_decide (default [] l ≠ [])
    then ["Field[" +:+ name +:+ "]." +:+ key +:+ " = {" +:+ join "," ids
            +:+ "};"]
    else [] in
  let setting (key : string) (x : option num) :=
    match x with
    | Some v =>
        if truthy v
        then ["Field[" +:+ name +:+ "]." +:+ key +:+ "= " +:+ fmt_r v +:+ ";"]
        else []
    | None => []
    end in
  add_boundary_layer edges_list faces_list nodes_list anisomax hfar
    hwall_n hwall_t ratio thickness s
  = (Returns name,
     logged
       ([name +:+ " = newf;"; "Field[" +:+ name +:+ "] = BoundaryLayer;"]
          ++ list_of "EdgesList" edges_list (id_of <$> default [] edges_list)
          ++ list_of "FacesList" faces_list (default [] faces_list)
          ++ list_of "NodesList" nodes_list (id_of <$> default [] nodes_list)
          ++ setting "hfar" hfar ++ setting "hwall_t" hwall_t
          ++ setting "hwall_n" hwall_n ++ setting "ratio" ratio
          ++ setting "thickness" thickness ++ setting "AnisoMax" anisomax)
       (ids s) (state_after (bump FIELD_ID) s)).
Proof.
  intros name list_of setting.
  assert (∀ {C} key x (f : () → Py C) out w s,
    (match x with
     | Some v =>
         when (truthy v)
           (append_code ("Field[" +:+ name +:+ "]." +:+ key +:+ "= "
                           +:+ fmt_r v +:+ ";"))
     | None => mret ()
     end ≫= f) (logged out w s) = f () (logged (out ++ setting key x) w s))
    as Hset.
  { intros C key [v|] f out w s1; simpl; [|by rewrite app_nil_r].
    apply when_append_code_bind. }
  unfold add_boundary_layer.
  cbv zeta. rewrite !fresh_bind. fold name.
  rewrite <- (logged_nil (state_after (bump FIELD_ID) s)) at 1.
  rewrite !append_code_bind, !when_append_code_bind, !Hset.
  subst list_of. cbv beta. rewrite <- !app_assoc. reflexivity.
Qed.

(** X15: [add_boundary_layer] always returns; it takes one field name,
    [field<n>], and appends the two statements that create the field, then
    one statement for each list that is not empty and one for each setting
    that is given and not zero, the settings in the order [hfar], [hwall_t],
    [hwall_n], [ratio], [thickness], [AnisoMax]. *)
Theorem add_boundary_layer_statements {A B} `{HasId A, HasId B}
    (edges_list : option (list A)) (faces_list : option (list string))
    (nodes_list : option (list B))
    (anisomax hfar hwall_n hwall_t ratio thickness : option num)
    (s : State) :
  let m :=
    add_boundary_layer edges_list faces_list nodes_list anisomax hfar
      hwall_n hwall_t ratio thickness in
  let name := "field" +:+ fmt_d (_FIELD_ID (self s) + 1) in
  let list_of {X} (key : string) (l : option (list X)) (ids : list string) :=
    if bool_decide (default [] l ≠ [])
    then ["Field[" +:+ name +:+ "]." +:+ key +:+ " = {" +:+ join "," ids
            +:+ "};"]
    else [] in
  let setting (key : string) (x : option num) :=
    match x with
    | Some v =>
        if truthy v
        then ["Field[" +:+ name +:+ "]." +:+ key +:+ "= " +:+ fmt_r v +:+ ";"]
        else []
    | None => []
    end in
  result_of m s = Returns name ∧
  _FIELD_ID (self (state_after m s)) = _FIELD_ID (self s) + 1 ∧
  _GMSH_CODE (self (state_after m s))
  = _GMSH_CODE (self s)
      ++ [name +:+ " = newf;"; "Field[" +:+ name +:+ "] = BoundaryLayer;"]
      ++ list_of "EdgesList" edges_list (id_of <$> default [] edges_list)
      ++ list_of "FacesList" faces_list (default [] faces_list)
      ++ list_of "NodesList" nodes_list (id_of <$> default [] nodes_list)
      ++ setting "hfar" hfar ++ setting "hwall_t" hwall_t
      ++ setting "hwall_n" hwall_n ++ setting "ratio" ratio
      ++ setting "thickness" thickness ++ setting "AnisoMax" anisomax.
Proof.
  intros m name list_of setting.
  unfold result_of, state_after, m. by rewrite add_boundary_layer_runs.
Qed.

(** X16: [add_boundary_layer] treats a setting that is zero as one that is
    not given. *)
Theorem add_boundary_layer_drops_zero {A B} `{HasId A, HasId B}
    (edges_list : option (list A)) (faces_list : option (list string))
    (nodes_list : option (list B))
    (anisomax hfar hwall_n hwall_t ratio thickness : option num)
    (s : State) :
  let given (x : option num) :=
    match x with
    | Some v => if truthy v then Some v else None
    | None => None
    end in
  add_boundary_layer edges_list faces_list nodes_list (given anisomax)
    (given hfar) (given hwall_n) (given hwall_t) (given ratio)
    (given thickness) s
  = add_boundary_layer edges_list faces_list nodes_list anisomax hfar
      hwall_n hwall_t ratio thickness s.
Proof.
  intros given. rewrite !add_boundary_layer_runs. cbv zeta.
  assert (∀ (f : num → list string) x,
    match given x with Some v => if truthy v then f v else [] | None => [] end
    = match x with Some v => if truthy v then f v else [] | None => [] end)
    as Hgiven.
  { intros f [v|]; [|done]. simpl. by destruct (truthy v) eqn:Hv; simpl;
      rewrite ?Hv. }
  by rewrite !Hgiven.
Qed.

End BuiltinFurther.

(** ** Rounds of extrusions *)

Section BuiltinRounds.
Context {num : Type} `{Numeric num} `{Builtin.EntityClasses num}.
Import Builtin.

Local Abbreviation Py := (M State).

(** The inner loop over the curves of [previous], counted: one statement,
    one far end and one swept surface for each curve. *)
Lemma extrude_lines_count {A} `{HasId A} (r p : vec3 num) (angle : string)
    (previous : list A) (s : State) :
  ∃ res out,
    mapM (λ prev,
        extrude (inl ("Line{" +:+ id_of prev +:+ "}") : string + Dummy)
          None (Some r) (Some p) (VStr angle)) previous s
    = (Returns res, extruded (N.of_nat (length previous)) out s) ∧
    length res = length previous ∧
    length out = length previous ∧
    Forall (λ stmt, is_extrusion stmt = true) out.
Proof.
  revert s. induction previous as [|prev previous IH]; intros s.
  - exists [], []. split; [|done]. rewrite mapM_nil.
    unfold extruded. destruct s as [[] ?]. simpl.
    by rewrite N.add_0_r, app_nil_r.
  - rewrite mapM_cons.
    rewrite (bind_returns _ _ _ _ _ (extrude_rotation_runs _ r p angle s)).
    cbv beta zeta.
    match goal with
    | |- context [mbind _ (mapM _ previous) ?s1] =>
        destruct (IH s1) as (res & out & Hrun & Hlen & Hlen' & Hout)
    end.
    eexists (_ :: res), (_ :: out).
    rewrite (bind_returns _ _ _ _ _ Hrun), extruded_extruded.
    split; [|split; [|split]].
    + replace (N.of_nat (length (prev :: previous)))
        with (1 + N.of_nat (length previous)) by (simpl; lia).
      done.
    + simpl. by rewrite Hlen.
    + simpl. by rewrite Hlen'.
    + by constructor.
Qed.

Lemma extrude_round_count {A B} `{HasId A} (r p : vec3 num) (angle : string)
    (previous : list A) (all_surfaces : list Dummy)
    (f : list Dummy * list Dummy → Py B) (s : State) :
  ∃ tops surfs out,
    (extrude_round r p angle previous all_surfaces ≫= f) s
    = f (tops, all_surfaces ++ surfs)
        (extruded (N.of_nat (length previous)) out s) ∧
    length tops = length previous ∧
    length surfs = length previous ∧
    length out = length previous ∧
    Forall (λ stmt, is_extrusion stmt = true) out.
Proof.
  destruct (extrude_lines_count r p angle previous s)
    as (res & out & Hrun & Hlen & Hlen' & Hout).
  exists (fst <$> res), (snd <$> res), out.
  unfold extrude_round. rewrite bind_assoc.
  rewrite (bind_returns _ _ _ _ _ Hrun), bind_ret.
  by rewrite !length_fmap.
Qed.

End BuiltinRounds.

Ltac count_round tops surfs out Htops Hsurfs Hlen Hout :=
  lazymatch goal with
  | Erun : mbind ?f (Builtin.extrude_round ?r ?p ?a ?prev ?all) ?s = (_, _)
    |- _ =>
      let E := fresh "E" in
      destruct (extrude_round_count r p a prev all f s)
        as (tops & surfs & out & E & Htops & Hsurfs & Hlen & Hout);
      rewrite E in Erun; clear E; tidy_state Erun
  end.

Section BuiltinBuilders.
Context {num : Type} `{Numeric num} `{Builtin.EntityClasses num}.
Import Builtin.


End BuiltinBuilders.

(** ** What no method does *)

Global Instance unchanged_preorder {St X} (attr : St → X) :
  PreOrder (unchanged attr).
Proof.
  split; [by intros s|]. intros s1 s2 s3. unfold unchanged. congruence.
Qed.

Section BuiltinNever.
Context {num : Type} `{Numeric num} `{Builtin.EntityClasses num}.
Import Builtin.

Local Abbreviation ellipse_id := (λ s : State, _ELLIPSE_ID (self s)).

Lemma append_code_ellipse_id (stmt : string) :
  preserves (unchanged ellipse_id) (append_code stmt).
Proof. by intros s. Qed.

Lemma bump_ellipse_id (c : counter) :
  c ≠ ELLIPSE_ID → preserves (unchanged ellipse_id) (bump c).
Proof. intros Hc s. by destruct c. Qed.

Lemma construct_ellipse_id {A} (init : class_ids → A * class_ids) :
  preserves (unchanged ellipse_id) (construct init).
Proof. intros s. unfold state_after, construct. by destruct (init (ids s)). Qed.

Local Hint Resolve append_code_ellipse_id construct_ellipse_id : pygmsh.
Local Hint Extern 1 (preserves _ (bump _)) =>
  apply bump_ellipse_id; discriminate : pygmsh.

Lemma exec_ellipse_id (c : call) : preserves (unchanged ellipse_id) (exec c).
Proof.
  destruct c; unfold exec;
    unfold add_pipe, _add_pipe_by_circle_extrusion,
      _add_pipe_by_rectangle_rotation, add_torus, _add_torus_extrude_circle,
      _add_torus_extrude_lines, extrude_round, add_box, add_ball,
      add_ellipsoid, add_rectangle, add_polygon, add_polygon_loop,
      add_raw_code, add_comment, add_array, add_background_field,
      add_boundary_layer, extrude, add_physical_volume, add_physical_surface,
      add_physical_line, add_physical_point, _new_physical_group,
      add_compound_volume, add_volume, add_surface_loop,
      add_compound_surface, add_ruled_surface, add, Circle, PlaneSurface,
      LineLoop, EllipseArc, Line, Point, new_entity, when, fresh, named, read;
    preserves_tac.
Qed.

(** X19: the session has a counter for ellipses that no method moves: it
    is zero in a new session and it is what it was after any calls,
    whether they returned or raised. *)
Theorem ellipse_counter_never_moves (script : list call) (s : State)
    (w : class_ids) :
  _ELLIPSE_ID (self (run script s)) = _ELLIPSE_ID (self s) ∧
  _ELLIPSE_ID (self (run script (start w))) = 0.
Proof.
  assert (∀ s, _ELLIPSE_ID (self (run script s)) = _ELLIPSE_ID (self s))
    as Hrun; [|by rewrite !Hrun].
  induction script as [|c script IH]; intros s1; [done|].
  simpl. rewrite IH. symmetry. apply (exec_ellipse_id c s1).
Qed.

End BuiltinNever.

(** ** The OpenCASCADE session *)

Section OpenCascadeFurther.
Context {num : Type} `{Numeric num} `{OpenCascade.EntityClasses num}.
Import OpenCascade.

(** X20: [boolean_intersection] of two or more entities of one dimension
    makes the first the object and all the others the tools of one
    [BooleanIntersection] statement, which is the only one appended, and
    returns a list entity of that dimension named [bo<n>] for the counter
    value [n] it has just reached. *)
Theorem boolean_intersection_first_against_rest (first : Entity)
    (rest : list Entity) (delete : bool) (d : dim_type) (s : State) :
  rest ≠ [] →
  all_of d (first :: rest) = true →
  let m := boolean_intersection (first :: rest) delete in
  let name := "bo" +:+ fmt_d (_BOOLEAN_ID (self s) + 1) in
  result_of m s = Returns (new_base d name (Some true)) ∧
  _GMSH_CODE (self (state_after m s))
  = _GMSH_CODE (self s)
      ++ [boolean_statement name "BooleanIntersection" d [first] rest
            delete] ∧
  _BOOLEAN_ID (self (state_after m s)) = _BOOLEAN_ID (self s) + 1 ∧
  _EXTRUDE_ID (self (state_after m s)) = _EXTRUDE_ID (self s).
Proof.
  intros Hrest Hall m name. subst m. unfold boolean_intersection.
  unfold result_of, state_after.
  rewrite (bind_returns _ _ s s ()).
  - by rewrite (_boolean_operation_returns _ [first] rest delete d s).
  - unfold assert. rewrite bool_decide_eq_true_2; [done|].
    destruct rest; [done | simpl; lia].
Qed.

(** X21: [boolean_intersection] of fewer than two entities fails its
    assertion before the session is touched: nothing is appended and, unlike
    in a boolean operation that fails later, no number is used up. *)
Theorem boolean_intersection_of_too_few (entities : list Entity)
    (delete : bool) (s : State) :
  (length entities < 2)%nat →
  let m := boolean_intersection entities delete in
  result_of m s = Raises (AssertionError "") ∧ state_after m s = s.
Proof.
  intros Hlen m. unfold result_of, state_after, m.
  by rewrite boolean_intersection_requires_two.
Qed.

(** X22: a boolean operation with no input entity raises [IndexError] where
    it reads the first of them, whatever the tools are: nothing is appended,
    and the boolean counter has moved on by one. *)
Theorem boolean_operation_without_input (operation : string)
    (tool_entities : list Entity) (delete : bool) (s : State) :
  let m := _boolean_operation operation [] tool_entities delete in
  result_of m s = Raises IndexError ∧
  _GMSH_CODE (self (state_after m s)) = _GMSH_CODE (self s) ∧
  _BOOLEAN_ID (self (state_after m s)) = _BOOLEAN_ID (self s) + 1.
Proof. done. Qed.

(** X23: the entity a boolean operation returns can be the input of the next
    one.  Two operations in a row on entities of one dimension append their
    two statements in order, numbered [n+1] and [n+2], the second with the
    result of the first as its object. *)
Theorem boolean_operations_chain (op1 op2 : string)
    (inputs tools tools2 : list Entity) (delete1 delete2 : bool)
    (d : dim_type) (s : State) :
  inputs ≠ [] →
  all_of d (inputs ++ tools) = true →
  all_of d tools2 = true →
  let m :=
    r ← _boolean_operation op1 inputs tools delete1;
    _boolean_operation op2 [r] tools2 delete2 in
  let name1 := "bo" +:+ fmt_d (_BOOLEAN_ID (self s) + 1) in
  let name2 := "bo" +:+ fmt_d (_BOOLEAN_ID (self s) + 2) in
  let r := new_base d name1 (Some true) in
  result_of m s = Returns (new_base d name2 (Some true)) ∧
  _GMSH_CODE (self (state_after m s))
  = _GMSH_CODE (self s)
      ++ [boolean_statement name1 op1 d inputs tools delete1;
          boolean_statement name2 op2 d [r] tools2 delete2].
Proof.
  intros Hne Hall Htools m name1 name2 r. subst m.
  unfold result_of, state_after.
  rewrite (bind_returns _ _ _ _ _
    (_boolean_operation_returns op1 inputs tools delete1 d s Hne Hall)).
  rewrite (_boolean_operation_returns op2 [_] tools2 delete2 d); [|done|].
  - simpl. rewrite <- app_assoc. simpl.
    by replace (_BOOLEAN_ID (self s) + 1 + 1) with (_BOOLEAN_ID (self s) + 2)
      by lia.
  - change (all_of d ([?e] ++ tools2)) with (isinstance e d && all_of d tools2).
    rewrite Htools. unfold isinstance. simpl. by rewrite bool_decide_eq_true_2.
Qed.

(** X24: [extrude] of a line gives a line (the top) and a surface, and
    [extrude] of a surface gives a surface and a volume; the one statement
    appended extrudes [Line{id}] or [Surface{id}] along the axis and assigns
    to [ex<n>[]], and the two entities returned are [ex<n>[0]] and
    [ex<n>[1]]. *)
Theorem occ_extrude_raises_dimension (e : Entity) (translation_axis : list num)
    (d : dim_type) (s : State) :
  base e = Some d →
  d ≠ VolumeBase →
  (d = LineBase → surface e = None) →
  let m := extrude (inr e) translation_axis in
  let name := "ex" +:+ fmt_d (_EXTRUDE_ID (self s) + 1) in
  let above :=
    match d with LineBase => SurfaceBase | _ => VolumeBase end in
  result_of m s
  = Returns (inl (new_base d (name +:+ "[0]") None),
             inl (new_base above (name +:+ "[1]") None)) ∧
  _GMSH_CODE (self (state_after m s))
  = _GMSH_CODE (self s)
      ++ [name +:+ "[] = Extrude{" +:+ join "," (fmt_r <$> translation_axis)
            +:+ "}{" +:+ legal_dim_types d +:+ "{" +:+ id e +:+ "};};"].
Proof.
  intros Hbase Hvol Hsurf m name above. subst m.
  unfold extrude, isinstance, result_of, state_after.
  destruct d; [| |done].
  - rewrite Hsurf by done. rewrite Hbase. simpl.
    split; [done|]. do 2 f_equal.
    by rewrite !append_assoc.
  - rewrite Hbase. simpl. split; [done|]. do 2 f_equal.
    by rewrite !append_assoc.
Qed.

(** X25: [extrude] of an object that is neither a line nor a surface and
    has no [surface] attribute, a volume for one, fails the assertion
    [Illegal extrude entity.]; nothing is appended, and the extrusion counter
    has moved on by one. *)
Theorem occ_extrude_illegal_entity (e : Entity) (translation_axis : list num)
    (s : State) :
  base e ≠ Some LineBase →
  base e ≠ Some SurfaceBase →
  surface e = None →
  let m := extrude (inr e) translation_axis in
  result_of m s = Raises (AssertionError "Illegal extrude entity.") ∧
  _GMSH_CODE (self (state_after m s)) = _GMSH_CODE (self s) ∧
  _EXTRUDE_ID (self (state_after m s)) = _EXTRUDE_ID (self s) + 1.
Proof.
  intros Hline Hsurf Hattr m. subst m.
  unfold extrude, isinstance, result_of, state_after.
  rewrite Hattr. rewrite !bool_decide_eq_false_2 by done. done.
Qed.

(** X26: the text of an OpenCASCADE session always opens with the header
    comment and, on the next line, the choice of the OpenCASCADE factory,
    whatever calls were made on it, and whether they returned or raised. *)
Theorem code_opens_with_factory (script : list call)
    (characteristic_length_min characteristic_length_max : option num)
    (w : class_ids) :
  let s := start characteristic_length_min characteristic_length_max w in
  startswith (get_code (self (run script s)))
    (("// This code was created by PyGmsh v" +:+ version +:+ ".") +:+ nl
       +:+ "SetFactory(" +:+ dq +:+ "OpenCASCADE" +:+ dq +:+ ");")
  = true.
Proof.
  intros s. destruct (occ_run_grows script s) as [[rest Hlog] _].
  unfold get_code. rewrite Hlog.
  set (h := "// This code was created by PyGmsh v" +:+ version +:+ ".").
  set (sf := "SetFactory(" +:+ dq +:+ "OpenCASCADE" +:+ dq +:+ ");").
  assert (∃ rest', _GMSH_CODE (self s) ++ rest = h :: sf :: rest')
    as [rest' ->].
  { destruct characteristic_length_min, characteristic_length_max;
      by eexists. }
  rewrite join_cons. destruct (join_head nl sf rest') as [tail ->].
  replace (h +:+ nl +:+ sf +:+ tail) with ((h +:+ nl +:+ sf) +:+ tail)
    by (by rewrite !append_assoc).
  apply startswith_app.
Qed.

End OpenCascadeFurther.

Section OpenCascadeNever.
Context {num : Type} `{Numeric num} `{OpenCascade.EntityClasses num}.
Import OpenCascade.

Local Abbreviation gmsh_major := (λ s : State, _GMSH_MAJOR (self s)).

Lemma occ_append_code_gmsh_major (stmt : string) :
  preserves (unchanged gmsh_major) (append_code stmt).
Proof. by intros s. Qed.

Lemma occ_bump_gmsh_major (c : counter) :
  preserves (unchanged gmsh_major) (bump c).
Proof. intros s. by destruct c. Qed.

Lemma occ_construct_gmsh_major
    (init : class_ids → outcome Shape * class_ids) :
  preserves (unchanged gmsh_major) (construct init).
Proof. intros s. unfold state_after, construct. by destruct (init (ids s)). Qed.

Local Hint Resolve occ_append_code_gmsh_major occ_bump_gmsh_major
  occ_construct_gmsh_major : pygmsh.

Lemma occ_exec_gmsh_major (c : call) :
  preserves (unchanged gmsh_major) (exec c).
Proof.
  destruct c; unfold exec;
    unfold add_rectangle, add_disk, add_ball, add_box, add_cylinder,
      add_torus, add_shape, boolean_intersection, boolean_union,
      boolean_difference, boolean_fragments, _boolean_operation, extrude,
      assert, fresh, named;
    preserves_tac.
Qed.

(** X27: [get_gmsh_major] reports the version found when the session was
    made, after any calls, whether they returned or raised. *)
Theorem gmsh_major_never_changes (script : list call)
    (characteristic_length_min characteristic_length_max : option num)
    (w : class_ids) :
  get_gmsh_major
    (self (run script
             (start characteristic_length_min characteristic_length_max w)))
  = get_gmsh_major_version.
Proof.
  assert (∀ s, _GMSH_MAJOR (self (run script s)) = _GMSH_MAJOR (self s))
    as Hrun; [|by unfold get_gmsh_major; rewrite Hrun].
  induction script as [|c script IH]; intros s1; [done|].
  simpl. rewrite IH. symmetry. apply (occ_exec_gmsh_major c s1).
Qed.

End OpenCascadeNever.

(** ** The further properties on concrete sessions *)

(** X1 on a new session *)
Lemma add_torus_with_unknown_variant :
  Builtin.add_torus (1 # 2)%Q 1%Q (1 # 10)%Q Sample.identity Sample.origin
    None "solid" Sample.builtin_session
  = (Raises (ValueError "Illegal variant 'solid'."), Sample.builtin_session).
Proof.
  assert ("solid" ≠ "extrude_lines") as Hlines by discriminate.
  assert ("solid" ≠ "extrude_circle") as Hcircle by discriminate.
  exact (add_torus_illegal_variant (1 # 2)%Q 1%Q (1 # 10)%Q Sample.identity
    Sample.origin None "solid" Sample.builtin_session Hlines Hcircle).
Defined.

(** X2 on a new session *)
Lemma add_pipe_with_unknown_variant :
  Builtin.add_pipe 1%Q (1 # 2)%Q 2%Q Sample.identity Sample.origin None
    (1 # 10)%Q "solid" Sample.builtin_session
  = (Raises (ValueError "Illegal variant 'solid'."), Sample.builtin_session).
Proof.
  assert ("solid" ≠ "rectangle_rotation") as Hrect by discriminate.
  assert ("solid" ≠ "circle_extrusion") as Hcirc by discriminate.
  exact (add_pipe_illegal_variant 1%Q (1 # 2)%Q 2%Q Sample.identity
    Sample.origin None (1 # 10)%Q "solid" Sample.builtin_session Hrect Hcirc).
Defined.

(** X4 on a new session: a translation of a line *)
Lemma extrude_translation_on_new_session :
  result_of
    (Builtin.extrude (inl "Line{l1}" : string + Builtin.Dummy)
       (Some Sample.origin) None None VNone) Sample.builtin_session
  = Returns ({| Builtin.dummy_id := "ex1[0]" |},
             {| Builtin.dummy_id := "ex1[1]" |}).
Proof.
  assert (is_Some (Some Sample.origin) ∨ is_Some (None : option (vec3 Q)))
    as Hgiven by (left; by eexists).
  assert (is_Some (None : option (vec3 Q)) → is_Some (None : option (vec3 Q)))
    as Hpoint by (intros Hnone; exact Hnone).
  exact (proj1 (extrude_appends_one_statement
    (inl "Line{l1}" : string + Builtin.Dummy) (Some Sample.origin) None None
    VNone Sample.builtin_session Hgiven Hpoint)).
Defined.



(** X20 on a new session: the intersection of three volumes *)
Lemma boolean_intersection_of_three_volumes :
  [Sample.volume "v2"; Sample.volume "v3"] ≠ [] ∧
  OpenCascade.all_of OpenCascade.VolumeBase
    [Sample.volume "v1"; Sample.volume "v2"; Sample.volume "v3"] = true ∧
  OpenCascade._GMSH_CODE
    (OpenCascade.self
       (state_after
          (OpenCascade.boolean_intersection
             [Sample.volume "v1"; Sample.volume "v2"; Sample.volume "v3"]
             true) Sample.occ_session))
  = OpenCascade._GMSH_CODE (OpenCascade.self Sample.occ_session)
      ++ ["bo1[] = BooleanIntersection{Volume {v1}; Delete;} "
            +:+ "{Volume {v2,v3}; Delete;};"].
Proof.
  assert ([Sample.volume "v2"; Sample.volume "v3"] ≠ []) as Hne
    by discriminate.
  assert (OpenCascade.all_of OpenCascade.VolumeBase
            [Sample.volume "v1"; Sample.volume "v2"; Sample.volume "v3"]
          = true) as Hall by reflexivity.
  split; [exact Hne|]. split; [exact Hall|].
  exact (proj1 (proj2 (boolean_intersection_first_against_rest (num:=Q)
    (Sample.volume "v1") [Sample.volume "v2"; Sample.volume "v3"] true
    OpenCascade.VolumeBase Sample.occ_session Hne Hall))).
Defined.

(** X21 on a new session: the intersection of one volume *)
Lemma boolean_intersection_of_one_volume :
  (length [Sample.volume "v1"] < 2)%nat ∧
  result_of (OpenCascade.boolean_intersection [Sample.volume "v1"] true)
    Sample.occ_session
  = Raises (AssertionError "") ∧
  state_after (OpenCascade.boolean_intersection [Sample.volume "v1"] true)
    Sample.occ_session
  = Sample.occ_session.
Proof.
  assert (length [Sample.volume "v1"] < 2)%nat as Hlen by (simpl; lia).
  split; [exact Hlen|].
  exact (boolean_intersection_of_too_few (num:=Q) [Sample.volume "v1"] true
    Sample.occ_session Hlen).
Defined.

(** X23 on a new session: a union, and the difference of its result and a
    third volume *)
Lemma difference_of_a_union :
  [Sample.volume "v1"] ≠ [] ∧
  result_of
    (r ← OpenCascade._boolean_operation "BooleanUnion" [Sample.volume "v1"]
           [Sample.volume "v2"] true;
     OpenCascade._boolean_operation "BooleanDifference" [r]
       [Sample.volume "v3"] true) Sample.occ_session
  = Returns (OpenCascade.new_base OpenCascade.VolumeBase "bo2" (Some true)).
Proof.
  assert ([Sample.volume "v1"] ≠ []) as Hne by discriminate.
  assert (OpenCascade.all_of OpenCascade.VolumeBase
            ([Sample.volume "v1"] ++ [Sample.volume "v2"]) = true)
    as Hall by reflexivity.
  assert (OpenCascade.all_of OpenCascade.VolumeBase [Sample.volume "v3"]
          = true) as Htools by reflexivity.
  split; [exact Hne|].
  exact (proj1 (boolean_operations_chain (num:=Q) "BooleanUnion"
    "BooleanDifference" [Sample.volume "v1"] [Sample.volume "v2"]
    [Sample.volume "v3"] true true OpenCascade.VolumeBase Sample.occ_session
    Hne Hall Htools)).
Defined.

(** X24 on a new session: a surface extruded along the third axis *)
Lemma extrude_of_a_surface :
  OpenCascade.base (Sample.flat "s1") = Some OpenCascade.SurfaceBase ∧
  result_of
    (OpenCascade.extrude (inr (Sample.flat "s1")) [0; 0; 1]%Q)
    Sample.occ_session
  = Returns
      (inl (OpenCascade.new_base OpenCascade.SurfaceBase "ex1[0]" None),
       inl (OpenCascade.new_base OpenCascade.VolumeBase "ex1[1]" None)).
Proof.
  assert (OpenCascade.base (Sample.flat "s1")
          = Some OpenCascade.SurfaceBase) as Hbase by reflexivity.
  assert (OpenCascade.SurfaceBase ≠ OpenCascade.VolumeBase) as Hvol
    by discriminate.
  assert (OpenCascade.SurfaceBase = OpenCascade.LineBase →
          OpenCascade.surface (Sample.flat "s1") = None) as Hsurf
    by (intros _; reflexivity).
  split; [exact Hbase|].
  exact (proj1 (occ_extrude_raises_dimension (num:=Q) (Sample.flat "s1")
    [0; 0; 1]%Q OpenCascade.SurfaceBase Sample.occ_session Hbase Hvol Hsurf)).
Defined.

(** X25 on a new session: a volume cannot be extruded *)
Lemma extrude_of_a_volume :
  OpenCascade.base (Sample.volume "v1") ≠ Some OpenCascade.LineBase ∧
  OpenCascade.base (Sample.volume "v1") ≠ Some OpenCascade.SurfaceBase ∧
  OpenCascade.surface (Sample.volume "v1") = None ∧
  result_of
    (OpenCascade.extrude (inr (Sample.volume "v1")) [0; 0; 1]%Q)
    Sample.occ_session
  = Raises (AssertionError "Illegal extrude entity.").
Proof.
  assert (OpenCascade.base (Sample.volume "v1")
          ≠ Some OpenCascade.LineBase) as Hline by discriminate.
  assert (OpenCascade.base (Sample.volume "v1")
          ≠ Some OpenCascade.SurfaceBase) as Hsurf by discriminate.
  assert (OpenCascade.surface (Sample.volume "v1") = None) as Hattr
    by reflexivity.
  split; [exact Hline|]. split; [exact Hsurf|]. split; [exact Hattr|].
  exact (proj1 (occ_extrude_illegal_entity (num:=Q) (Sample.volume "v1")
    [0; 0; 1]%Q Sample.occ_session Hline Hsurf Hattr)).
Defined.
